(** * new-educt: the view-state logic of the content generator, the file
      uploader and the service wrappers

    The repository is a React single-page application.  Its behaviour lives in
    event handlers that read the state of the render that created them and
    queue state updates, and in asynchronous handlers that suspend on one HTTP
    call.  This development embeds

    - [src/component/content.tsx]   (module [TacticalContentGenerator]),
    - [src/component/fileUpload.tsx] (module [FileUploader]),
    - [src/service/api.ts]           (module [Api]),

    over a small model of the JavaScript values these handlers touch
    (module [Js]) and of React's snapshot-and-queue discipline (module
    [React]). *)

From Stdlib Require Import ZArith Ascii String List Bool Lia.
From stdpp Require Import base tactics list strings pretty.
Import ListNotations.
Local Open Scope string_scope.
Set Warnings "-register-all".

(* ===================================================================== *)
(** * JavaScript values and the primitives the components use *)
(* ===================================================================== *)

Module Js.

(** Strings are sequences of code units.  The model keeps the code units
    below 256 (Latin-1), which is what [Ascii.ascii] holds. *)

(** [WhiteSpace] and [LineTerminator] code units below 256: TAB, LF, VT,
    FF, CR, SPACE and NO-BREAK SPACE.  They are what [String.prototype.trim]
    strips and what the regular expression class [\s] matches. *)
Definition isWhiteSpace (c : ascii) : bool :=
  let n := N_of_ascii c in
  ((9 <=? n) && (n <=? 13) || (n =? 32) || (n =? 160))%N.

Fixpoint trimStart (s : string) : string :=
  match s with
  | EmptyString => EmptyString
  | String c s' => if isWhiteSpace c then trimStart s' else s
  end.

Fixpoint trimEnd (s : string) : string :=
  match s with
  | EmptyString => EmptyString
  | String c s' =>
      match trimEnd s' with
      | EmptyString => if isWhiteSpace c then EmptyString else String c EmptyString
      | t => String c t
      end
  end.

(** [s.trim()] *)
Definition trim (s : string) : string := trimEnd (trimStart s).

(** [s.replace(/\s+/g, r)]: scanning from the left, a white-space code unit
    starts a match of [\s+]; the match is greedy, so it takes the whole run
    ([skipRun]); [r] is emitted once for it and the scan resumes behind the
    run.  Any other code unit is copied. *)
Fixpoint replaceWhiteSpaceRuns (r : string) (s : string) : string :=
  match s with
  | EmptyString => EmptyString
  | String c s' =>
      if isWhiteSpace c then r +:+ skipRun r s'
      else String c (replaceWhiteSpaceRuns r s')
  end
with skipRun (r : string) (s : string) : string :=
  match s with
  | EmptyString => EmptyString
  | String c s' =>
      if isWhiteSpace c then skipRun r s'
      else String c (replaceWhiteSpaceRuns r s')
  end.

(** Lower-case mapping of one Latin-1 code unit: [A-Z] and the accented
    capitals U+00C0..U+00DE (U+00D7, the multiplication sign, excepted) move
    up by 32. *)
Definition lowerCaseUnit (c : ascii) : ascii :=
  let n := N_of_ascii c in
  if ((65 <=? n) && (n <=? 90) || (192 <=? n) && (n <=? 222) && negb (n =? 215))%N
  then ascii_of_N (n + 32)
  else c.

(** [s.toLowerCase()] *)
Fixpoint toLowerCase (s : string) : string :=
  match s with
  | EmptyString => EmptyString
  | String c s' => String (lowerCaseUnit c) (toLowerCase s')
  end.

(** [l.includes(v)] on an array of strings *)
Fixpoint includes (l : list string) (v : string) : bool :=
  match l with
  | [] => false
  | x :: l' => String.eqb x v || includes l' v
  end.

(** The values a handler can hold: what [response.json()] and axios'
    [res.data] deliver, what a state cell can contain.  [VNum n] is the
    Number value nearest to the integer [n] (ties to the even mantissa), which
    is what parsing the numeral of [n] yields; every integer of magnitude
    below 2^53 is its own Number value.  Numbers with a fractional part are
    not represented. *)
Inductive value : Type :=
| VUndefined
| VNull
| VBool (b : bool)
| VNum (n : Z)
| VStr (s : string)
| VArr (elements : list value)
| VObj (fields : list (string * value)).

(** [ToBoolean]: what [if (v)], [!v] and [v || w] test. *)
Definition truthy (v : value) : bool :=
  match v with
  | VUndefined | VNull => false
  | VBool b => b
  | VNum n => negb (n =? 0)%Z
  | VStr s => negb (String.eqb s EmptyString)
  | VArr _ | VObj _ => true
  end.

(** [a || b] *)
Definition or_else (a b : value) : value := if truthy a then a else b.

(** [typeof v === 'string'] *)
Definition isString (v : value) : bool :=
  match v with
  | VStr _ => true
  | _ => false
  end.

(** The Number value nearest to the integer [v >= 0], as an integer: [v]
    itself while it fits the 53 bits of the mantissa, otherwise [v] rounded
    to 53 significant bits, a tie going to the even mantissa.  The exponent
    is left unbounded here; a result of 2^1024 or more stands for
    [Infinity]. *)
Definition roundToDouble (v : Z) : Z :=
  let bits := (Z.log2 v + 1)%Z in
  if (bits <=? 53)%Z then v
  else
    let shift := (bits - 53)%Z in
    let q := Z.shiftr v shift in
    let r := Z.land v (Z.ones shift) in
    let half := Z.shiftl 1 (shift - 1) in
    let q' := if (half <? r)%Z || ((r =? half)%Z && Z.odd q) then (q + 1)%Z else q in
    Z.shiftl q' shift.

(** The decimal that [Number::toString] prints for the Number value [x], an
    integer of [d] digits: the integer [s * 10^(d-k)] with the fewest
    significant digits [k] whose Number value is [x]; of two with the same
    [k] the one nearer to [x], and the one with [s] even when they are
    equally near.  With [k] digits the candidates are the two multiples of
    [10^(d-k)] around [x]. *)
Fixpoint shortestDecimal (fuel : nat) (k d x : Z) : Z :=
  match fuel with
  | O => x
  | S fuel' =>
      let u := (10 ^ (d - k))%Z in
      let lo := (x / u * u)%Z in
      let hi := (lo + u)%Z in
      let okLo := (roundToDouble lo =? x)%Z in
      let okHi := (roundToDouble hi =? x)%Z in
      if okLo && okHi then
        if (x - lo <? hi - x)%Z then lo
        else if (hi - x <? x - lo)%Z then hi
        else if Z.even (x / u) then lo else hi
      else if okLo then lo
      else if okHi then hi
      else shortestDecimal fuel' (k + 1)%Z d x
  end.

Fixpoint dropTrailingZeros (s : string) : string :=
  match s with
  | EmptyString => EmptyString
  | String c s' =>
      match dropTrailingZeros s' with
      | EmptyString => if Ascii.eqb c "0" then EmptyString else String c EmptyString
      | t => String c t
      end
  end.

(** [Number::toString] in radix 10 of the Number value of the integer [n].
    Below 2^53 it is the numeral of [n].  From there on it is the numeral of
    the shortest decimal while that has at most 21 digits, and otherwise its
    significant digits, a point behind the first of them, and the exponent;
    a magnitude beyond the largest Number prints as [Infinity]. *)
Definition numberToString (n : Z) : string :=
  let x := roundToDouble (Z.abs n) in
  let sign := if (n <? 0)%Z then "-" else "" in
  if (x <? 2 ^ 53)%Z then pretty n
  else if (2 ^ 1024 <=? x)%Z then sign +:+ "Infinity"
  else
    let numeral :=
      pretty (shortestDecimal (String.length (pretty x)) 1
                (Z.of_nat (String.length (pretty x))) x) in
    if (String.length numeral <=? 21)%nat then sign +:+ numeral
    else
      match dropTrailingZeros numeral with
      | EmptyString => sign +:+ numeral
      | String c EmptyString =>
          sign +:+ String c "e+" +:+ pretty (Z.of_nat (String.length numeral) - 1)%Z
      | String c digits =>
          sign +:+ String c ("." +:+ digits) +:+ "e+"
          +:+ pretty (Z.of_nat (String.length numeral) - 1)%Z
      end.
Arguments numberToString : simpl never.

(** [ToString], as a template literal or [new Error(v)] applies it. *)
Fixpoint toString (v : value) : string :=
  match v with
  | VUndefined => "undefined"
  | VNull => "null"
  | VBool true => "true"
  | VBool false => "false"
  | VNum n => numberToString n
  | VStr s => s
  | VArr l =>
      (fix join (l : list value) : string :=
         match l with
         | [] => EmptyString
         | x :: l' =>
             let e := match x with
                      | VUndefined | VNull => EmptyString
                      | _ => toString x
                      end in
             match l' with
             | [] => e
             | _ => e +:+ "," +:+ join l'
             end
         end) l
  | VObj _ => "[object Object]"
  end.

(** What a [throw] or a rejected promise carries: an [Error] instance, with
    its message and its further own properties (axios' errors carry
    [isAxiosError] and, when the server answered, [response]), or any other
    value. *)
Inductive thrown : Type :=
| ErrorObject (message : string) (props : list (string * value))
| ThrownValue (v : value).

(** [new Error(v)]: the message is [ToString v]. *)
Definition newError (v : value) : thrown := ErrorObject (toString v) [].

(** The outcome of evaluating code that may throw, and of awaiting a promise
    (fulfilled or rejected). *)
Inductive completion (A : Type) : Type :=
| Normal (a : A)
| Throw (e : thrown).
Arguments Normal {A} a.
Arguments Throw {A} e.

#[global] Instance completion_ret : MRet completion := fun _ a => Normal a.
#[global] Instance completion_bind : MBind completion := fun _ _ k c =>
  match c with
  | Normal a => k a
  | Throw e => Throw e
  end.

(** [p.catch(h)] *)
Definition catch {A} (c : completion A) (h : thrown -> A) : completion A :=
  match c with
  | Normal a => Normal a
  | Throw e => Normal (h e)
  end.

(** The text of the [TypeError] raised when a property is read from [null]
    or [undefined] differs between JavaScript engines; it is given the
    source text of the object expression, the offending value and the
    property name. *)
Record Engine : Type := { typeErrorMessage : string -> value -> string -> string }.

Definition V8 : Engine :=
  {| typeErrorMessage := fun _ v k =>
       "Cannot read properties of " +:+ toString v +:+ " (reading '" +:+ k +:+ "')" |}.

Fixpoint lookupField (k : string) (fields : list (string * value)) : value :=
  match fields with
  | [] => VUndefined
  | (k', v) :: rest => if String.eqb k' k then v else lookupField k rest
  end.

(** [o.k], where [expr] is the source text of [o].  Reading from [null] or
    [undefined] throws; an object yields its field or [undefined].  The
    keys read by the program ([content], [message], [error], [text],
    [result], [topics]) name no built-in property of a boolean, number,
    string or array, so those yield [undefined]. *)
Definition getProp (E : Engine) (expr : string) (o : value) (k : string)
  : completion value :=
  match o with
  | VUndefined | VNull => Throw (ErrorObject (typeErrorMessage E expr o k) [])
  | VObj fields => Normal (lookupField k fields)
  | _ => Normal VUndefined
  end.

(** [o?.k] *)
Definition getPropOpt (o : value) (k : string) : value :=
  match o with
  | VObj fields => lookupField k fields
  | _ => VUndefined
  end.

(** [File]: the name and the MIME type are what the program reads. *)
Record File : Type := { name : string; type : string }.

(** An HTTP request as the program hands it to [fetch] or [axios.post]: a
    JSON body is kept as the value that is serialised, a multipart body as
    its parts. *)
Inductive body : Type :=
| JsonBody (payload : value)
| FormBody (parts : list (string * File)).

Record request : Type :=
  { method : string; url : string; headers : list (string * string); data : body }.

(** The [Response] of [fetch]; [json] is what the promise of
    [response.json()] settles to. *)
Record Response : Type := { ok : bool; status : Z; json : completion value }.

(** The response object of axios; [res.data] is the parsed body. *)
Record AxiosResponse : Type := { res_data : value }.

End Js.

(* ===================================================================== *)
(** * React: handlers read a snapshot and queue updates *)
(* ===================================================================== *)

Module React.

(** A handler is created by a render and closes over that render's state,
    the snapshot.  A setter call does not change what the handler reads: it
    is applied, in call order, to the state of the next render.  A handler
    may end by throwing. *)
Definition handler (S A : Type) : Type := S -> S -> Js.completion A * S.

Section Handler.
Context {S : Type}.

#[global] Instance handler_ret : MRet (handler S) :=
  fun _ a _ next => (Js.Normal a, next).

#[global] Instance handler_bind : MBind (handler S) := fun _ _ k m snap next =>
  match m snap next with
  | (Js.Normal a, next') => k a snap next'
  | (Js.Throw e, next') => (Js.Throw e, next')
  end.

(** Reading a state variable of the closure. *)
Definition read {A} (f : S -> A) : handler S A :=
  fun snap next => (Js.Normal (f snap), next).

(** Calling a setter with an updater function (a plain value is the
    constant updater). *)
Definition update (f : S -> S) : handler S unit :=
  fun _ next => (Js.Normal tt, f next).

(** Evaluating code that may throw; awaiting a settled promise. *)
Definition lift {A} (c : Js.completion A) : handler S A :=
  fun _ next => (c, next).

(** [throw e] *)
Definition throw {A} (e : Js.thrown) : handler S A := lift (Js.Throw e).

(** [try { body } catch (err) { h err } finally { f }] *)
Definition tryCatchFinally (body : handler S unit)
           (h : Js.thrown -> handler S unit) (f : handler S unit)
  : handler S unit :=
  fun snap next =>
    let r := match body snap next with
             | (Js.Normal tt, next') => (Js.Normal tt, next')
             | (Js.Throw e, next') => h e snap next'
             end in
    match f snap (snd r) with
    | (Js.Normal tt, next'') => (fst r, next'')
    | (Js.Throw e, next'') => (Js.Throw e, next'')
    end.

(** The state of the next render when the handler is invoked from the
    render showing [s]. *)
Definition run {A} (h : handler S A) (s : S) : S := snd (h s s).

(** What the handler returned or threw. *)
Definition result {A} (h : handler S A) (s : S) : Js.completion A := fst (h s s).

End Handler.

(** An asynchronous handler runs to its [await] and yields the request; the
    rest runs when the request settles, against whatever the state is
    then. *)
Inductive task (S O : Type) : Type :=
| Done
| Await (req : Js.request) (resume : O -> handler S unit).
Arguments Done {S O}.
Arguments Await {S O} req resume.

Definition issued {S O} (t : Js.completion (task S O)) : option Js.request :=
  match t with
  | Js.Normal (Await req _) => Some req
  | _ => None
  end.

(** The state once the asynchronous handler, invoked from the render
    showing [s], has run to its end with no other event in between: [o] is
    what its request settled to. *)
Definition complete {S O} (h : handler S (task S O)) (o : O) (s : S) : S :=
  match h s s with
  | (Js.Normal (Await _ resume), s1) => snd (resume o s s1)
  | (_, s1) => s1
  end.

End React.

(* ===================================================================== *)
(** * component/content.tsx *)
(* ===================================================================== *)

Module TacticalContentGenerator.
Import Js React.

Record FormData : Type :=
  { contentType : string;
    topic : string;
    tactics : list string;
    tone : string;
    length : string;
    complexity : string;
    audience : string;
    keywords : string;
    examples : string;
    humorLevel : string }.

(** The state variables of the component.  [content] is declared a string,
    but it receives [data.content] of the parsed response unconverted, so it
    is a value; [error] only ever receives strings. *)
Record State : Type :=
  { formData : FormData;
    currentStep : Z;
    loading : bool;
    content : value;
    showAdvanced : bool;
    error : string }.

Definition defaultFormData : FormData :=
  {| contentType := "strategy"; topic := ""; tactics := [];
     tone := "professional"; length := "medium"; complexity := "intermediate";
     audience := ""; keywords := ""; examples := "yes"; humorLevel := "none" |}.

(** The arguments of the [useState] calls. *)
Definition initialState : State :=
  {| formData := defaultFormData; currentStep := 0; loading := false;
     content := VStr ""; showAdvanced := false; error := "" |}.

(** ** The setters *)

Definition setFormData (f : FormData -> FormData) (s : State) : State :=
  {| formData := f (formData s); currentStep := currentStep s; loading := loading s;
     content := content s; showAdvanced := showAdvanced s; error := error s |}.

Definition setCurrentStep (f : Z -> Z) (s : State) : State :=
  {| formData := formData s; currentStep := f (currentStep s); loading := loading s;
     content := content s; showAdvanced := showAdvanced s; error := error s |}.

Definition setLoading (b : bool) (s : State) : State :=
  {| formData := formData s; currentStep := currentStep s; loading := b;
     content := content s; showAdvanced := showAdvanced s; error := error s |}.

Definition setContent (c : value) (s : State) : State :=
  {| formData := formData s; currentStep := currentStep s; loading := loading s;
     content := c; showAdvanced := showAdvanced s; error := error s |}.

Definition setShowAdvanced (b : bool) (s : State) : State :=
  {| formData := formData s; currentStep := currentStep s; loading := loading s;
     content := content s; showAdvanced := b; error := error s |}.

Definition setError (e : string) (s : State) : State :=
  {| formData := formData s; currentStep := currentStep s; loading := loading s;
     content := content s; showAdvanced := showAdvanced s; error := e |}.

Definition steps : list (string * string) :=
  [("Core", "Core Query"); ("Frameworks", "Frameworks");
   ("Parameters", "Parameters"); ("Generate", "Generate")].

Definition tacticalOptions : list (string * string) :=
  [("swot", "Strength/Weakness Review"); ("pestle", "External Factors Scan");
   ("porter", "Competitive Landscape Scan"); ("okr", "Goal Setting with Metrics");
   ("growth", "Rapid Experimentation"); ("military", "Strategic Maneuvering");
   ("game", "Interactive Decision-Making"); ("behavioral", "Human Behavior Insights")].

(** The [name] attributes of the inputs and selects bound to [handleChange]. *)
Inductive inputName : Type :=
| NContentType | NTopic | NTone | NLength | NHumorLevel
| NComplexity | NExamples | NAudience | NKeywords.

Definition inputName_eqb (a b : inputName) : bool :=
  match a, b with
  | NContentType, NContentType | NTopic, NTopic | NTone, NTone
  | NLength, NLength | NHumorLevel, NHumorLevel | NComplexity, NComplexity
  | NExamples, NExamples | NAudience, NAudience | NKeywords, NKeywords => true
  | _, _ => false
  end.

(** [{ ...prev, [name]: value }] *)
Definition setField (name : inputName) (value : string) (prev : FormData) : FormData :=
  let field (n : inputName) (old : string) := if inputName_eqb name n then value else old in
  {| contentType := field NContentType (contentType prev);
     topic := field NTopic (topic prev);
     tactics := tactics prev;
     tone := field NTone (tone prev);
     length := field NLength (length prev);
     complexity := field NComplexity (complexity prev);
     audience := field NAudience (audience prev);
     keywords := field NKeywords (keywords prev);
     examples := field NExamples (examples prev);
     humorLevel := field NHumorLevel (humorLevel prev) |}.

(** [{ ...prev, tactics: newTactics }] *)
Definition setTactics (newTactics : list string) (prev : FormData) : FormData :=
  {| contentType := contentType prev; topic := topic prev; tactics := newTactics;
     tone := tone prev; length := length prev; complexity := complexity prev;
     audience := audience prev; keywords := keywords prev;
     examples := examples prev; humorLevel := humorLevel prev |}.

(** [if (error) setError('')] *)
Definition clearErrorIfSet : handler State unit :=
  e ← read error;
  if truthy (VStr e) then update (setError "") else mret tt.

Definition handleChange (name : inputName) (value : string) : handler State unit :=
  update (setFormData (fun prev => setField name value prev));;
  clearErrorIfSet.

(** The updater that [handleTacticSelect] passes to [setFormData]. *)
Definition toggleTactic (value : string) (prev : FormData) : FormData :=
  let newTactics :=
    if includes (tactics prev) value
    then List.filter (fun t => negb (String.eqb t value)) (tactics prev)
    else (tactics prev ++ [value])%list in
  setTactics newTactics prev.

Definition handleTacticSelect (value : string) : handler State unit :=
  update (setFormData (toggleTactic value));;
  clearErrorIfSet.

Definition isCurrentStepValid (stepIndex : Z) (s : State) : bool :=
  match stepIndex with
  | 0 => truthy (VStr (trim (topic (formData s))))
  | 1 => (0 <? List.length (tactics (formData s)))%nat
  | 2 | 3 => true
  | _ => true
  end%Z.

Definition dquote : string := String "034"%char EmptyString.

Definition coreQueryMessage : string :=
  "Please provide a " +:+ dquote +:+ "Core Query" +:+ dquote +:+ " (topic) to proceed.".

Definition frameworkMessage : string :=
  "Please select at least one " +:+ dquote +:+ "Operational Framework" +:+ dquote
  +:+ " to proceed.".

Definition validateStep (stepIndex : Z) : handler State bool :=
  update (setError "");;
  fd ← read formData;
  match stepIndex return handler State bool with
  | 0 =>
      if negb (truthy (VStr (trim (topic fd))))
      then update (setError coreQueryMessage);; mret false
      else mret true
  | 1 =>
      if (List.length (tactics fd) =? 0)%nat
      then update (setError frameworkMessage);; mret false
      else mret true
  | 2 => mret true
  | 3 => mret true
  | _ => mret true
  end%Z.

Definition handleNextStep : handler State unit :=
  step ← read currentStep;
  valid ← validateStep step;
  if (valid : bool) then
    if (step <? Z.of_nat (List.length steps) - 1)%Z then
      update (setCurrentStep (fun prev => prev + 1)%Z);;
      update (setError "")
    else mret tt
  else mret tt.

Definition handlePrevStep : handler State unit :=
  step ← read currentStep;
  if (0 <? step)%Z then
    update (setCurrentStep (fun prev => prev - 1)%Z);;
    update (setError "")
  else mret tt.

Definition apiUrl : string := "https://educt-back.onrender.com/api/generate-content".

Definition payload (fd : FormData) : value :=
  VObj [("contentType", VStr (contentType fd));
        ("topic", VStr (topic fd));
        ("tactics", VArr (map VStr (tactics fd)));
        ("tone", VStr (tone fd));
        ("length", VStr (length fd));
        ("complexity", VStr (complexity fd));
        ("audience", VStr (audience fd));
        ("keywords", VStr (keywords fd));
        ("examples", VStr (examples fd));
        ("humorLevel", VStr (humorLevel fd))].

(** The [try] block of [generateContent] from [await fetch(...)] up to its
    call of [setContent]: it touches no state and yields [data.content], or
    throws.  [settled] is what the promise of [fetch] settled to. *)
Definition awaitContent (E : Engine) (settled : completion Response)
  : completion value :=
  response ← settled;
  (if negb (ok response) then
     errorData ← catch (json response) (fun _ => VObj []);
     message ← getProp E "errorData" errorData "message";
     Throw (newError
              (or_else message
                 (VStr ("Server error: " +:+ toString (VNum (status response))))))
   else Normal tt);;
  data ← json response;
  c ← getProp E "data" data "content";
  (if negb (truthy c)
   then Throw (newError (VStr "No content received from backend server"))
   else Normal tt);;
  Normal c.

(** The request failed: [fetch] rejected, or the response is not ok. *)
Definition fetchFailed (settled : completion Response) : bool :=
  match settled with
  | Throw _ => true
  | Normal response => negb (ok response)
  end.

(** The part of [generateContent] behind [await fetch(...)]: the rest of the
    [try] block, the [catch] and the [finally].  Logging to the console and
    scrolling the output into view change no state and are left out. *)
Definition generateContent_resume (E : Engine) (settled : completion Response)
  : handler State unit :=
  tryCatchFinally
    (c ← lift (awaitContent E settled);
     update (setContent c))
    (fun err =>
       match err with
       | ErrorObject message _ =>
           update (setError
                     (toString
                        (or_else (VStr message)
                           (VStr "Failed to generate content. Please check your network and try again."))))
       | ThrownValue _ =>
           update (setError "An unexpected error occurred during content generation.")
       end)
    (update (setLoading false)).

(** [generateContent] up to its [await]. *)
Definition generateContent (E : Engine)
  : handler State (task State (completion Response)) :=
  fd ← read formData;
  if negb (truthy (VStr (trim (topic fd)))) || (List.length (tactics fd) =? 0)%nat then
    update (setError "Please complete all previous required fields.");;
    mret Done
  else
    update (setLoading true);;
    update (setError "");;
    update (setContent (VStr ""));;
    mret (Await {| method := "POST"; url := apiUrl;
                   headers := [("Content-Type", "application/json")];
                   data := JsonBody (payload fd) |}
                (generateContent_resume E)).

(** What the anchor element built by [downloadMarkdown] saves: the parts of
    the [Blob], its type, and the [download] attribute (the file name). *)
Record Download : Type :=
  { blobParts : list value; blobType : string; download : string }.

Definition downloadMarkdown : handler State (option Download) :=
  c ← read content;
  if negb (truthy c) then mret None
  else
    fd ← read formData;
    mret (Some {| blobParts := [c]; blobType := "text/markdown";
                  download :=
                    "tactical-content-"
                    +:+ toString
                          (or_else
                             (VStr (toLowerCase (replaceWhiteSpaceRuns "-" (topic fd))))
                             (VStr "untitled"))
                    +:+ ".md" |}).

Definition clearForm : handler State unit :=
  update (setFormData (fun _ => defaultFormData));;
  update (setContent (VStr ""));;
  update (setError "");;
  update (setCurrentStep (fun _ => 0%Z));;
  update (setShowAdvanced false).

(** [unusedTactics], as [regenerateWithEnhancement] computes it. *)
Definition unusedTactics (fd : FormData) : list string :=
  List.filter (fun t => negb (includes (tactics fd) t)) (map fst tacticalOptions).

(** [regenerateWithEnhancement]; [i] is the index that
    [Math.floor(Math.random() * unusedTactics.length)] drew.  The handler ends
    by arming a timer for [generateContent] of its own closure. *)
Definition regenerateWithEnhancement (i : nat) : handler State unit :=
  fd ← read formData;
  if (0 <? List.length (tactics fd))%nat then
    if (0 <? List.length (unusedTactics fd))%nat then
      match nth_error (unusedTactics fd) i with
      | Some randomTactic =>
          update (setFormData (fun prev => setTactics (tactics prev ++ [randomTactic])%list prev))
      | None => mret tt
      end
    else mret tt
  else mret tt.

(** [onClick={() => setShowAdvanced(!showAdvanced)}] *)
Definition toggleAdvanced : handler State unit :=
  b ← read showAdvanced;
  update (setShowAdvanced (negb b)).

(** ** The component as a transition system

    Between two events the component shows [view].  A timer armed by
    [regenerateWithEnhancement] and not yet
    fired is recorded with the state its closure captured, and so is a
    generate-content request that was issued and has not settled. *)
Record System : Type :=
  { view : State; inflight : list State; timers : list State }.

Definition initialSystem : System :=
  {| view := initialState; inflight := []; timers := [] |}.

Inductive event : Type :=
| Change (name : inputName) (value : string)
| TacticSelect (value : string)
| ToggleAdvanced
| Next
| Prev
| Generate
| Clear
| Regenerate (i : nat)
| TimerFires (k : nat)
| Settles (k : nat) (settled : completion Response).

(** The control that raises the event is rendered and not disabled (the
    conditions of the JSX); a timer or a request is there to fire or
    settle.  Copying and downloading the content change no state and are not
    events here. *)
Definition enabled (sys : System) (e : event) : bool :=
  let s := view sys in
  match e with
  | Change name _ =>
      match name with
      | NContentType | NTopic => (currentStep s =? 0)%Z
      | NTone | NLength | NHumorLevel => (currentStep s =? 2)%Z
      | NComplexity | NExamples | NAudience | NKeywords =>
          (currentStep s =? 2)%Z && showAdvanced s
      end
  | TacticSelect value =>
      (currentStep s =? 1)%Z && includes (map fst tacticalOptions) value
  | ToggleAdvanced => (currentStep s =? 2)%Z
  | Next => (currentStep s <? Z.of_nat (List.length steps) - 1)%Z
  | Prev => (0 <? currentStep s)%Z
  | Generate => (currentStep s =? Z.of_nat (List.length steps) - 1)%Z && negb (loading s)
  | Clear => (currentStep s =? Z.of_nat (List.length steps) - 1)%Z
  | Regenerate i =>
      truthy (content s) && negb (loading s)
      && ((i <? List.length (unusedTactics (formData s)))%nat
          || (List.length (unusedTactics (formData s)) =? 0)%nat)
  | TimerFires k => (k <? List.length (timers sys))%nat
  | Settles k _ => (k <? List.length (inflight sys))%nat
  end.

(** Running [generateContent] of the closure over [snap] while the component
    shows [view sys]. *)
Definition startGenerate (E : Engine) (snap : State) (sys : System) (timers' : list State)
  : System :=
  let r := generateContent E snap (view sys) in
  {| view := snd r;
     inflight := match issued (fst r) with
                 | Some _ => (inflight sys ++ [snap])%list
                 | None => inflight sys
                 end;
     timers := timers' |}.

Definition fire (E : Engine) (sys : System) (e : event) : System :=
  let s := view sys in
  let show (s' : State) :=
    {| view := s'; inflight := inflight sys; timers := timers sys |} in
  match e with
  | Change name value => show (run (handleChange name value) s)
  | TacticSelect value => show (run (handleTacticSelect value) s)
  | ToggleAdvanced => show (run toggleAdvanced s)
  | Next => show (run handleNextStep s)
  | Prev => show (run handlePrevStep s)
  | Generate => startGenerate E s sys (timers sys)
  | Clear => show (run clearForm s)
  | Regenerate i =>
      {| view := run (regenerateWithEnhancement i) s;
         inflight := inflight sys;
         timers := (timers sys ++ [s])%list |}
  | TimerFires k =>
      match timers sys !! k with
      | Some snap => startGenerate E snap sys (delete k (timers sys))
      | None => sys
      end
  | Settles k settled =>
      match inflight sys !! k with
      | Some snap =>
          {| view := snd (generateContent_resume E settled snap s);
             inflight := delete k (inflight sys);
             timers := timers sys |}
      | None => sys
      end
  end.

Inductive reachable (E : Engine) : System -> Prop :=
| reachable_initial : reachable E initialSystem
| reachable_fire sys e :
    reachable E sys -> enabled sys e = true -> reachable E (fire E sys e).

End TacticalContentGenerator.

(* ===================================================================== *)
(** * component/fileUpload.tsx *)
(* ===================================================================== *)

Module FileUploader.
Import Js React.

Inductive tab : Type := insights | analysis.

(** The state variables of the component.  [insightData] and [analysisData]
    receive [res.data] as it comes, [error] receives the [error] field of an
    error response as it comes: they are values, [null] at first. *)
Record State : Type :=
  { loadingInsights : bool;
    loadingAnalysis : bool;
    fileName : string;
    file : option File;
    activeTab : tab;
    insightData : value;
    analysisData : value;
    error : value;
    isDragging : bool }.

Definition initialState : State :=
  {| loadingInsights := false; loadingAnalysis := false; fileName := "";
     file := None; activeTab := insights; insightData := VNull;
     analysisData := VNull; error := VNull; isDragging := false |}.

Definition isLoading (s : State) : bool := loadingInsights s || loadingAnalysis s.

(** [disabled={!file || isLoading}] on both request buttons. *)
Definition requestDisabled (s : State) : bool :=
  match file s with None => true | Some _ => false end || isLoading s.

Definition setLoadingInsights (b : bool) (s : State) : State :=
  {| loadingInsights := b; loadingAnalysis := loadingAnalysis s;
     fileName := fileName s; file := file s; activeTab := activeTab s;
     insightData := insightData s; analysisData := analysisData s;
     error := error s; isDragging := isDragging s |}.

Definition setLoadingAnalysis (b : bool) (s : State) : State :=
  {| loadingInsights := loadingInsights s; loadingAnalysis := b;
     fileName := fileName s; file := file s; activeTab := activeTab s;
     insightData := insightData s; analysisData := analysisData s;
     error := error s; isDragging := isDragging s |}.

Definition setFileName (n : string) (s : State) : State :=
  {| loadingInsights := loadingInsights s; loadingAnalysis := loadingAnalysis s;
     fileName := n; file := file s; activeTab := activeTab s;
     insightData := insightData s; analysisData := analysisData s;
     error := error s; isDragging := isDragging s |}.

Definition setFile (f : option File) (s : State) : State :=
  {| loadingInsights := loadingInsights s; loadingAnalysis := loadingAnalysis s;
     fileName := fileName s; file := f; activeTab := activeTab s;
     insightData := insightData s; analysisData := analysisData s;
     error := error s; isDragging := isDragging s |}.

Definition setActiveTab (t : tab) (s : State) : State :=
  {| loadingInsights := loadingInsights s; loadingAnalysis := loadingAnalysis s;
     fileName := fileName s; file := file s; activeTab := t;
     insightData := insightData s; analysisData := analysisData s;
     error := error s; isDragging := isDragging s |}.

Definition setInsightData (d : value) (s : State) : State :=
  {| loadingInsights := loadingInsights s; loadingAnalysis := loadingAnalysis s;
     fileName := fileName s; file := file s; activeTab := activeTab s;
     insightData := d; analysisData := analysisData s;
     error := error s; isDragging := isDragging s |}.

Definition setAnalysisData (d : value) (s : State) : State :=
  {| loadingInsights := loadingInsights s; loadingAnalysis := loadingAnalysis s;
     fileName := fileName s; file := file s; activeTab := activeTab s;
     insightData := insightData s; analysisData := d;
     error := error s; isDragging := isDragging s |}.

Definition setError (e : value) (s : State) : State :=
  {| loadingInsights := loadingInsights s; loadingAnalysis := loadingAnalysis s;
     fileName := fileName s; file := file s; activeTab := activeTab s;
     insightData := insightData s; analysisData := analysisData s;
     error := e; isDragging := isDragging s |}.

Definition setIsDragging (b : bool) (s : State) : State :=
  {| loadingInsights := loadingInsights s; loadingAnalysis := loadingAnalysis s;
     fileName := fileName s; file := file s; activeTab := activeTab s;
     insightData := insightData s; analysisData := analysisData s;
     error := error s; isDragging := b |}.

Definition acceptedTypes : list string :=
  ["application/pdf";
   "application/vnd.openxmlformats-officedocument.wordprocessingml.document"].

Definition handleFileSelection (selectedFile : File) : handler State unit :=
  update (setError VNull);;
  update (setInsightData VNull);;
  update (setAnalysisData VNull);;
  if negb (includes acceptedTypes (type selectedFile)) then
    update (setError (VStr "Unsupported file type. Please upload a PDF or DOCX file."));;
    update (setFile None);;
    update (setFileName "")
  else
    update (setFile (Some selectedFile));;
    update (setFileName (name selectedFile)).

(** [e.dataTransfer.files[0]] is [droppedFile]. *)
Definition handleDrop (droppedFile : option File) : handler State unit :=
  update (setIsDragging false);;
  match droppedFile with
  | Some f => handleFileSelection f
  | None => mret tt
  end.

(** [e.target.files?.[0]] is [selectedFile]. *)
Definition handleFileChange (selectedFile : option File) : handler State unit :=
  match selectedFile with
  | Some f => handleFileSelection f
  | None => mret tt
  end.

(** [err.k] for the properties the handler reads from what it caught. *)
Definition thrownProp (err : thrown) (k : string) : value :=
  match err with
  | ErrorObject _ props => lookupField k props
  | ThrownValue v => getPropOpt v k
  end.

(** [axios.isAxiosError(err)]: an object whose [isAxiosError] is [true]. *)
Definition isAxiosError (err : thrown) : bool :=
  match thrownProp err "isAxiosError" with
  | VBool true => true
  | _ => false
  end.

(** [err.response?.data?.error] *)
Definition serverError (err : thrown) : value :=
  getPropOpt (getPropOpt (thrownProp err "response") "data") "error".

(** The part of a request handler behind [await axios.post(...)]. *)
Definition commonRequest_resume (endpoint : string) (setter : value -> State -> State)
           (loaderSetter : bool -> State -> State) (t : tab)
           (settled : completion AxiosResponse) : handler State unit :=
  tryCatchFinally
    (res ← lift settled;
     update (setter (res_data res));;
     update (setActiveTab t))
    (fun err =>
       if isAxiosError err then
         update (setError
                   (or_else (serverError err)
                      (VStr ("Failed to " +:+ endpoint +:+ ". Please try again."))))
       else
         update (setError
                   (VStr ("An unexpected error occurred during " +:+ endpoint +:+ "."))))
    (update (loaderSetter false)).

(** The handler that [commonRequestConfig] returns, up to its [await]. *)
Definition commonRequestConfig (endpoint : string) (setter : value -> State -> State)
           (loaderSetter : bool -> State -> State) (t : tab)
  : handler State (task State (completion AxiosResponse)) :=
  f ← read file;
  match f with
  | None =>
      update (setError (VStr "Please select a file first."));;
      mret Done
  | Some f =>
      update (loaderSetter true);;
      update (setter VNull);;
      update (setError VNull);;
      mret (Await {| method := "POST";
                     url := "http://localhost:5000/api/" +:+ endpoint;
                     headers := [("Content-Type", "multipart/form-data")];
                     data := FormBody [("file", f)] |}
                  (commonRequest_resume endpoint setter loaderSetter t))
  end.

Definition handleInsights :=
  commonRequestConfig "insights" setInsightData setLoadingInsights insights.

Definition handleAnalyze :=
  commonRequestConfig "analyze" setAnalysisData setLoadingAnalysis analysis.

End FileUploader.

(* ===================================================================== *)
(** * service/api.ts *)
(* ===================================================================== *)

Module Api.
Import Js.

Definition BASE_URL : string := "http://localhost:5000".

(** An [async] wrapper around one [axios.post]: the request it sends, and
    what its promise settles to once the request has settled. *)
Record call : Type :=
  { sent : request; settle : completion AxiosResponse -> completion value }.

Definition uploadFile (E : Engine) (file : File) : call :=
  {| sent := {| method := "POST"; url := BASE_URL +:+ "/upload"; headers := [];
                data := FormBody [("file", file)] |};
     settle := fun settled =>
       res ← settled; getProp E "res.data" (res_data res) "text" |}.

Definition rewriteText (E : Engine) (text : string) : call :=
  {| sent := {| method := "POST"; url := BASE_URL +:+ "/rewrite"; headers := [];
                data := JsonBody (VObj [("text", VStr text)]) |};
     settle := fun settled =>
       res ← settled; getProp E "res.data" (res_data res) "result" |}.

Definition digestText (E : Engine) (text : string) : call :=
  {| sent := {| method := "POST"; url := BASE_URL +:+ "/digest"; headers := [];
                data := JsonBody (VObj [("text", VStr text)]) |};
     settle := fun settled =>
       res ← settled; getProp E "res.data" (res_data res) "result" |}.

Definition generateTopics (E : Engine) (text : string) : call :=
  {| sent := {| method := "POST"; url := BASE_URL +:+ "/topics"; headers := [];
                data := JsonBody (VObj [("text", VStr text)]) |};
     settle := fun settled =>
       res ← settled; getProp E "res.data" (res_data res) "topics" |}.

End Api.


(* ===================================================================== *)
(** * Sample inputs *)
(* ===================================================================== *)

Module Sample.
Import Js React TacticalContentGenerator.

(** The form on its last step, with a topic and one tactic. *)
Definition filledForm : State :=
  setCurrentStep (fun _ => 3%Z)
    (setFormData (fun _ => setTactics ["swot"] (setField NTopic "Edge AI" defaultFormData))
       initialState).

(** A 200 response whose body is the JSON text [null]. *)
Definition nullBody : Response :=
  {| ok := true; status := 200; json := Normal VNull |}.

(** A 200 response carrying generated content. *)
Definition contentBody : Response :=
  {| ok := true; status := 200;
     json := Normal (VObj [("content", VStr "# Edge AI")]) |}.

(** A 503 response whose body is not JSON. *)
Definition unavailable : Response :=
  {| ok := false; status := 503; json := Throw (ErrorObject "Unexpected token" []) |}.

(** The user fills the form, walks to the last step and presses the
    generate button; the request has not settled yet. *)
Definition toBusy : list event :=
  [Change NTopic "Edge AI"; Next; TacticSelect "swot"; Next; Next; Generate].

Definition busy : System := fold_left (fire V8) toBusy initialSystem.

(** That request is answered with content, which is then on display. *)
Definition shown : System := fire V8 busy (Settles 0 (Normal contentBody)).

(** The user then asks for a regeneration; the index drawn is 0.  The timer
    of the click is armed and has not fired yet. *)
Definition clicked : System := fire V8 shown (Regenerate 0).

(** The rejection of axios for a 400 response whose body is
    [{ error: { message: ... } }]. *)
Definition structuredError : thrown :=
  ErrorObject "Request failed with status code 400"
    [("isAxiosError", VBool true);
     ("response",
      VObj [("status", VNum 400);
            ("data", VObj [("error", VObj [("message", VStr "File too large")])])])].

(** The rejection of axios when the server cannot be reached. *)
Definition networkError : thrown :=
  ErrorObject "Network Error" [("isAxiosError", VBool true)].

Definition report : File :=
  {| name := "report.pdf"; type := "application/pdf" |}.

Definition picture : File :=
  {| name := "photo.png"; type := "image/png" |}.

(** The uploader with [report] selected. *)
Definition selected : FileUploader.State :=
  run (FileUploader.handleFileSelection report) FileUploader.initialState.

End Sample.

(* ===================================================================== *)
(** * The download file name, in the words of the specification *)
(* ===================================================================== *)

Module FileNameSpec.

Fixpoint allWhiteSpace (s : string) : bool :=
  match s with
  | EmptyString => true
  | String c s' => Js.isWhiteSpace c && allWhiteSpace s'
  end.

Definition startsWithWhiteSpace (s : string) : bool :=
  match s with
  | EmptyString => false
  | String c _ => Js.isWhiteSpace c
  end.

(** [runsReplaced s t]: [t] is [s] with every white-space run replaced by
    one hyphen.  A run is a non-empty block of white space that is followed
    by no further white space; read from the left, every white-space code
    unit of [s] therefore falls into exactly one run. *)
Inductive runsReplaced : string -> string -> Prop :=
| runsReplaced_end : runsReplaced "" ""
| runsReplaced_unit c s t :
    Js.isWhiteSpace c = false ->
    runsReplaced s t ->
    runsReplaced (String c s) (String c t)
| runsReplaced_run blanks rest t :
    blanks <> "" ->
    allWhiteSpace blanks = true ->
    startsWithWhiteSpace rest = false ->
    runsReplaced rest t ->
    runsReplaced (blanks +:+ rest) (String "-" t).

End FileNameSpec.

(* ===================================================================== *)
(** * Reading the form *)
(* ===================================================================== *)

Module FormFields.
Import TacticalContentGenerator.

(** [formData[name]], for the name of an input. *)
Definition getField (name : inputName) (fd : FormData) : string :=
  match name with
  | NContentType => contentType fd
  | NTopic => topic fd
  | NTone => tone fd
  | NLength => length fd
  | NHumorLevel => humorLevel fd
  | NComplexity => complexity fd
  | NExamples => examples fd
  | NAudience => audience fd
  | NKeywords => keywords fd
  end.

End FormFields.

(* ===================================================================== *)
(** * The file uploader as a transition system *)
(* ===================================================================== *)

Module UploaderSystem.
Import Js React FileUploader.

Definition handleDragEnter : handler State unit := update (setIsDragging true).

Definition handleDragLeave : handler State unit := update (setIsDragging false).

(** [onClick={() => setActiveTab(t)}] *)
Definition showTab (t : tab) : handler State unit := update (setActiveTab t).

(** The handler that a request button runs, and the part of it that runs
    when its request settles. *)
Definition requestHandler (t : tab) : handler State (task State (completion AxiosResponse)) :=
  match t with
  | insights => handleInsights
  | analysis => handleAnalyze
  end.

Definition requestResume (t : tab) : completion AxiosResponse -> handler State unit :=
  match t with
  | insights => commonRequest_resume "insights" setInsightData setLoadingInsights insights
  | analysis => commonRequest_resume "analyze" setAnalysisData setLoadingAnalysis analysis
  end.

(** Between two events the component shows [view]; a request that was issued
    and has not settled is recorded with the button that issued it and the
    state its closure captured. *)
Record System : Type :=
  { view : State; inflight : list (tab * State) }.

Definition initialSystem : System := {| view := initialState; inflight := [] |}.

Inductive event : Type :=
| DragEnter
| DragLeave
| Drop (droppedFile : option File)
| FileChange (selectedFile : option File)
| Request (t : tab)
| ShowTab (t : tab)
| Settles (k : nat) (settled : completion AxiosResponse).

(** The control that raises the event is rendered and not disabled. *)
Definition enabled (sys : System) (e : event) : bool :=
  let s := view sys in
  match e with
  | DragEnter | DragLeave | Drop _ | FileChange _ => true
  | Request _ => negb (requestDisabled s)
  | ShowTab t =>
      (truthy (insightData s) || truthy (analysisData s))
      && match t with
         | insights => truthy (insightData s)
         | analysis => truthy (analysisData s)
         end
  | Settles k _ => (k <? List.length (inflight sys))%nat
  end.

Definition fire (sys : System) (e : event) : System :=
  let s := view sys in
  let show (s' : State) := {| view := s'; inflight := inflight sys |} in
  match e with
  | DragEnter => show (run handleDragEnter s)
  | DragLeave => show (run handleDragLeave s)
  | Drop f => show (run (handleDrop f) s)
  | FileChange f => show (run (handleFileChange f) s)
  | Request t =>
      let r := requestHandler t s s in
      {| view := snd r;
         inflight := match issued (fst r) with
                     | Some _ => (inflight sys ++ [(t, s)])%list
                     | None => inflight sys
                     end |}
  | ShowTab t => show (run (showTab t) s)
  | Settles k settled =>
      match inflight sys !! k with
      | Some (t, snap) =>
          {| view := snd (requestResume t settled snap s);
             inflight := delete k (inflight sys) |}
      | None => sys
      end
  end.

Inductive reachable : System -> Prop :=
| reachable_initial : reachable initialSystem
| reachable_fire sys e :
    reachable sys -> enabled sys e = true -> reachable (fire sys e).

(** A document is selected and its insights have been requested. *)
Definition waiting : System :=
  fold_left fire [FileChange (Some Sample.report); Request insights] initialSystem.

End UploaderSystem.

(* ===================================================================== *)
(** * ProfessionalSpeechInput.tsx *)
(* ===================================================================== *)

Module SpeechInput.
Import Js React.

(** [s.startsWith(w)] *)
Fixpoint startsWith (s w : string) : bool :=
  match w, s with
  | EmptyString, _ => true
  | String _ _, EmptyString => false
  | String a w', String b s' => Ascii.eqb a b && startsWith s' w'
  end.

(** [s.includes(w)] on strings: [w] occurs in [s] at some position. *)
Fixpoint occursIn (s w : string) : bool :=
  startsWith s w
  || match s with
     | EmptyString => false
     | String _ s' => occursIn s' w
     end.

(** [Array.from(new Set(xs))]: the elements of [xs] in the order of their
    first occurrence; [seen] is what the set holds already. *)
Fixpoint distinctFrom (seen xs : list string) : list string :=
  match xs with
  | [] => []
  | x :: rest =>
      if includes seen x then distinctFrom seen rest
      else x :: distinctFrom (seen ++ [x]) rest
  end.

Definition distinct (xs : list string) : list string := distinctFrom [] xs.

(** [type Sentiment]; [unset] is the empty string. *)
Inductive Sentiment : Type := positive | negative | neutral | mixed | unset.

Definition Sentiment_eqb (a b : Sentiment) : bool :=
  match a, b with
  | positive, positive | negative, negative | neutral, neutral
  | mixed, mixed | unset, unset => true
  | _, _ => false
  end.

(** [speaker] is [undefined] when the list of speakers is empty; the
    timestamp is the time value of the [Date]. *)
Record TranscriptEntry : Type :=
  { speaker : option string;
    text : string;
    timestamp : Z;
    sentiment : Sentiment;
    keywords : list string }.

Record State : Type :=
  { isListening : bool;
    currentSpeaker : option string;
    transcript : list TranscriptEntry;
    language : string;
    overallSentiment : Sentiment;
    overallSummary : string;
    overallKeywords : list string;
    error : option string }.

(** The state of the first render, for the props [speakers] and
    [defaultLanguage]. *)
Definition initialState (speakers : list string) (defaultLanguage : string) : State :=
  {| isListening := false; currentSpeaker := head speakers; transcript := [];
     language := defaultLanguage; overallSentiment := unset; overallSummary := "";
     overallKeywords := []; error := None |}.

Definition setIsListening (b : bool) (s : State) : State :=
  {| isListening := b; currentSpeaker := currentSpeaker s; transcript := transcript s;
     language := language s; overallSentiment := overallSentiment s;
     overallSummary := overallSummary s; overallKeywords := overallKeywords s;
     error := error s |}.

Definition setCurrentSpeaker (sp : option string) (s : State) : State :=
  {| isListening := isListening s; currentSpeaker := sp; transcript := transcript s;
     language := language s; overallSentiment := overallSentiment s;
     overallSummary := overallSummary s; overallKeywords := overallKeywords s;
     error := error s |}.

Definition setTranscript (f : list TranscriptEntry -> list TranscriptEntry) (s : State)
  : State :=
  {| isListening := isListening s; currentSpeaker := currentSpeaker s;
     transcript := f (transcript s);
     language := language s; overallSentiment := overallSentiment s;
     overallSummary := overallSummary s; overallKeywords := overallKeywords s;
     error := error s |}.

Definition setLanguage (l : string) (s : State) : State :=
  {| isListening := isListening s; currentSpeaker := currentSpeaker s;
     transcript := transcript s;
     language := l; overallSentiment := overallSentiment s;
     overallSummary := overallSummary s; overallKeywords := overallKeywords s;
     error := error s |}.

Definition setOverallSentiment (x : Sentiment) (s : State) : State :=
  {| isListening := isListening s; currentSpeaker := currentSpeaker s;
     transcript := transcript s;
     language := language s; overallSentiment := x;
     overallSummary := overallSummary s; overallKeywords := overallKeywords s;
     error := error s |}.

Definition setOverallSummary (x : string) (s : State) : State :=
  {| isListening := isListening s; currentSpeaker := currentSpeaker s;
     transcript := transcript s;
     language := language s; overallSentiment := overallSentiment s;
     overallSummary := x; overallKeywords := overallKeywords s;
     error := error s |}.

Definition setOverallKeywords (x : list string) (s : State) : State :=
  {| isListening := isListening s; currentSpeaker := currentSpeaker s;
     transcript := transcript s;
     language := language s; overallSentiment := overallSentiment s;
     overallSummary := overallSummary s; overallKeywords := x;
     error := error s |}.

Definition setError (e : option string) (s : State) : State :=
  {| isListening := isListening s; currentSpeaker := currentSpeaker s;
     transcript := transcript s;
     language := language s; overallSentiment := overallSentiment s;
     overallSummary := overallSummary s; overallKeywords := overallKeywords s;
     error := e |}.

Definition positiveWords : list string :=
  ["excellent"; "happy"; "great"; "perfect"; "love"; "agree"; "good"].

Definition negativeWords : list string :=
  ["bad"; "terrible"; "awful"; "hate"; "worst"; "disagree"; "issue"].

Definition commonKeywords : list string :=
  ["urgent"; "important"; "deadline"; "meeting"; "review"; "project"; "report";
   "client"; "strategy"; "data"].

(** [words.filter(w => text.toLowerCase().includes(w))] *)
Definition occurring (words : list string) (text : string) : list string :=
  List.filter (fun w => occursIn (toLowerCase text) w) words.

(** What the promise of [analyzeSentiment] resolves to (its timer only
    delays it). *)
Definition analyzeSentiment (text : string) : Sentiment :=
  let positiveCount := List.length (occurring positiveWords text) in
  let negativeCount := List.length (occurring negativeWords text) in
  if (0 <? positiveCount)%nat && (0 <? negativeCount)%nat then mixed
  else if (negativeCount <? positiveCount)%nat then positive
  else if (positiveCount <? negativeCount)%nat then negative
  else neutral.

(** What the promise of [extractKeywords] resolves to. *)
Definition extractKeywords (text : string) : list string :=
  firstn 3 (occurring commonKeywords text).

Definition analyzeTranscript (entry : TranscriptEntry) : TranscriptEntry :=
  {| speaker := speaker entry; text := text entry; timestamp := timestamp entry;
     sentiment := analyzeSentiment (text entry);
     keywords := extractKeywords (text entry) |}.

(** [processNewTranscript]; [now] is the time at which it is called.  Its
    awaits only delay the update of the transcript. *)
Definition processNewTranscript (content : string) (now : Z) : handler State unit :=
  sp ← read currentSpeaker;
  let newEntry :=
    {| speaker := sp; text := content; timestamp := now; sentiment := unset;
       keywords := [] |} in
  let analyzedEntry := analyzeTranscript newEntry in
  update (setTranscript (fun prev => prev ++ [analyzedEntry])%list).

(** The [onresult] handler of the recognition: [isFinal] and [content] are
    [isFinal] and [[0].transcript] of the latest result. *)
Definition onresult (isFinal : bool) (content : string) (now : Z) : handler State unit :=
  if isFinal then
    if truthy (VStr (trim content)) then processNewTranscript content now
    else mret tt
  else mret tt.

(** The [onerror] handler of the recognition; [code] is [event.error]. *)
Definition onerror (code : string) : handler State unit :=
  update (setError
            (Some ("Speech recognition error: " +:+ code
                   +:+ ". Please check microphone permissions.")));;
  update (setIsListening false).

(** What [updateOverallAnalysis] passes to [onAnalysisComplete]. *)
Record Analysis : Type :=
  { analysisSentiment : Sentiment; analysisSummary : string;
    analysisKeywords : list string }.

(** [sentiments.filter(s => s === x).length], over the non-empty sentiments
    of the transcript. *)
Definition countSentiment (x : Sentiment) (t : list TranscriptEntry) : nat :=
  List.length
    (List.filter (fun s => Sentiment_eqb s x)
       (List.filter (fun s => negb (Sentiment_eqb s unset)) (map sentiment t))).

Definition overallOf (positiveCount negativeCount mixedCount : nat) : Sentiment :=
  if (negativeCount <? positiveCount)%nat && (mixedCount <? positiveCount)%nat then positive
  else if (positiveCount <? negativeCount)%nat && (mixedCount <? negativeCount)%nat
       then negative
  else if (0 <? mixedCount)%nat then mixed
  else if (0 <? positiveCount)%nat then positive
  else if (0 <? negativeCount)%nat then negative
  else neutral.

Definition summaryOf (t : list TranscriptEntry) : string :=
  let recentText := String.concat " " (map text (skipn (List.length t - 5) t)) in
  "Summary: "
  +:+ (if (150 <? String.length recentText)%nat
       then String.substring 0 150 recentText +:+ "..."
       else toString (or_else (VStr recentText) (VStr "No clear summary yet."))).

Definition updateOverallAnalysis : handler State Analysis :=
  t ← read transcript;
  if (List.length t =? 0)%nat then
    update (setOverallSummary "");;
    update (setOverallSentiment unset);;
    update (setOverallKeywords []);;
    mret {| analysisSentiment := unset; analysisSummary := ""; analysisKeywords := [] |}
  else
    let summaryGen := summaryOf t in
    update (setOverallSummary summaryGen);;
    let currentOverallSentiment :=
      overallOf (countSentiment positive t) (countSentiment negative t)
        (countSentiment mixed t) in
    update (setOverallSentiment currentOverallSentiment);;
    let allKeywords := distinct (flat_map keywords t) in
    update (setOverallKeywords allKeywords);;
    mret {| analysisSentiment := currentOverallSentiment;
            analysisSummary := summaryGen; analysisKeywords := allKeywords |}.

(** [toggleListening]; [started] tells whether setting the language of the
    recognition and starting it went through without throwing. *)
Definition toggleListening (started : bool) : handler State unit :=
  listening ← read isListening;
  if (listening : bool) then update (setIsListening false)
  else
    update (setError None);;
    if started then update (setIsListening true)
    else
      update (setError
                (Some "Failed to start speech recognition. Please ensure microphone access is granted and no other application is using it."));;
      update (setIsListening false).

(** [speakers.indexOf(x)] *)
Fixpoint indexOf (l : list string) (x : string) : Z :=
  match l with
  | [] => -1
  | y :: rest =>
      if String.eqb y x then 0
      else let i := indexOf rest x in if (i <? 0)%Z then -1 else i + 1
  end%Z.

(** [rotateSpeaker].  With no speakers the remainder is [NaN] and the
    element read is [undefined]. *)
Definition rotateSpeaker (speakers : list string) : handler State unit :=
  cur ← read currentSpeaker;
  let currentIndex := match cur with
                      | Some x => indexOf speakers x
                      | None => (-1)%Z
                      end in
  let n := Z.of_nat (List.length speakers) in
  let next := if (n =? 0)%Z then None
              else speakers !! Z.to_nat ((currentIndex + 1) mod n) in
  update (setCurrentSpeaker next).

(** ** The component as a transition system

    The effect that depends on [language] creates the recognition and
    installs [onresult] and [onerror]; these close over the render that ran
    the effect, recorded in [recognition] ([None] when the browser has no
    speech recognition).  The effect that depends on [transcript] runs
    [updateOverallAnalysis] of the render that changed the transcript. *)
Record System : Type :=
  { supported : bool; view : State; recognition : option State }.

Definition unsupportedMessage : string :=
  "Speech recognition is not supported in your browser. Please use Chrome or Edge for optimal performance.".

(** The effect on [language], run for the render showing [s]. *)
Definition languageEffect (supp : bool) (s : State) : System :=
  if supp then {| supported := supp; view := s; recognition := Some s |}
  else {| supported := supp; view := setError (Some unsupportedMessage) s;
          recognition := None |}.

(** The component once mounted. *)
Definition mount (supp : bool) (speakers : list string) (defaultLanguage : string)
  : System :=
  languageEffect supp (run updateOverallAnalysis (initialState speakers defaultLanguage)).

Inductive event : Type :=
| Toggle (started : bool)
| SelectSpeaker (sp : string)
| Rotate
| SelectLanguage (l : string)
| Result (isFinal : bool) (content : string) (now : Z)
| RecognitionError (code : string).

Definition fire (speakers : list string) (sys : System) (e : event) : System :=
  let s := view sys in
  let show (s' : State) :=
    {| supported := supported sys; view := s'; recognition := recognition sys |} in
  match e with
  | Toggle started => show (run (toggleListening started) s)
  | SelectSpeaker sp => show (setCurrentSpeaker (Some sp) s)
  | Rotate => show (run (rotateSpeaker speakers) s)
  | SelectLanguage l =>
      if String.eqb l (language s) then sys
      else languageEffect (supported sys) (setLanguage l s)
  | Result isFinal content now =>
      match recognition sys with
      | Some closure =>
          let s1 := snd (onresult isFinal content now closure s) in
          if (List.length (transcript s1) =? List.length (transcript s))%nat then show s1
          else show (run updateOverallAnalysis s1)
      | None => sys
      end
  | RecognitionError code =>
      match recognition sys with
      | Some closure => show (snd (onerror code closure s))
      | None => sys
      end
  end.

Definition changesLanguage (e : event) : bool :=
  match e with
  | SelectLanguage _ => true
  | _ => false
  end.

End SpeechInput.

(* ===================================================================== *)
(** * White space in strings *)
(* ===================================================================== *)

Module WhiteSpace.

(** No code unit of [s] is white space. *)
Fixpoint free (s : string) : bool :=
  match s with
  | EmptyString => true
  | String c s' => negb (Js.isWhiteSpace c) && free s'
  end.

End WhiteSpace.

(* ===================================================================== *)
(** * Proof steps shared by the developments below *)
(* ===================================================================== *)

(** Unfolds a handler down to the setter calls it makes. *)
Ltac run_handler :=
  unfold React.run, React.result, React.complete, mbind, React.handler_bind,
    mret, React.handler_ret, React.read, React.update, React.throw, React.lift,
    React.tryCatchFinally in *;
  cbn in *.

(** Splits on the condition of the first conditional of the goal. *)
Ltac case_if :=
  match goal with
  | |- context [if ?b then _ else _] => destruct b eqn:?; cbn
  end.

(* ===================================================================== *)
(** * Facts about the JavaScript primitives *)
(* ===================================================================== *)

Section JsFacts.
Import Js.

Example trim_strips_both_ends : trim "  edge  ai " = "edge  ai".
Proof. reflexivity. Qed.

Example replace_collapses_runs :
  replaceWhiteSpaceRuns "-" " Quantum   Computing 101 " = "-Quantum-Computing-101-".
Proof. reflexivity. Qed.

Example toString_joins_arrays :
  toString (VArr [VNum 1; VNull; VStr "a"; VArr [VNum (-2); VBool true]]) = "1,,a,-2,true".
Proof. reflexivity. Qed.

Example numberToString_forms :
  map numberToString
    [503; -42; 2 ^ 53 + 1; 123456789012345678901; 10 ^ 21 - 1; 10 ^ 21;
     123456789012345678901234; - 10 ^ 23; 2 ^ 1024]%Z
  = ["503"; "-42"; "9007199254740992"; "123456789012345680000"; "1e+21"; "1e+21";
     "1.2345678901234569e+23"; "-1e+23"; "Infinity"].
Proof. vm_compute. reflexivity. Qed.

(** Below 2^53 the search for the shortest decimal ends on the integer
    itself, so that its numeral is what is printed. *)
Example shortestDecimal_of_small_integers :
  map (fun x => shortestDecimal (String.length (pretty x)) 1
                  (Z.of_nat (String.length (pretty x))) x)
    [1; 7; 10; 404; 503; 1200; 65535; 2 ^ 53 - 1]%Z
  = [1; 7; 10; 404; 503; 1200; 65535; 2 ^ 53 - 1]%Z.
Proof. vm_compute. reflexivity. Qed.


Lemma truthy_string (s : string) : truthy (VStr s) = true <-> s <> "".
Proof.
  cbn. destruct (String.eqb_spec s ""); cbn; split; congruence.
Qed.

Lemma falsy_string (s : string) : truthy (VStr s) = false <-> s = "".
Proof.
  cbn. destruct (String.eqb_spec s ""); cbn; split; congruence.
Qed.

Lemma includes_elem_of (l : list string) (v : string) :
  includes l v = true <-> v ∈ l.
Proof.
  induction l as [|x l IH]; cbn.
  - split; [discriminate | inversion 1].
  - rewrite orb_true_iff, IH, elem_of_cons, String.eqb_eq.
    split; intros [->|H]; auto.
Qed.

Lemma includes_not_elem_of (l : list string) (v : string) :
  includes l v = false <-> v ∉ l.
Proof.
  rewrite <- includes_elem_of. destruct (includes l v); split; congruence.
Qed.

(** [l.filter(t => t !== v)] *)
Lemma elem_of_remove (l : list string) (v x : string) :
  x ∈ List.filter (fun t => negb (String.eqb t v)) l <-> x ∈ l ∧ x <> v.
Proof.
  rewrite !list_elem_of_In, filter_In, negb_true_iff, String.eqb_neq. tauto.
Qed.


Lemma NoDup_remove (l : list string) (v : string) :
  NoDup l -> NoDup (List.filter (fun t => negb (String.eqb t v)) l).
Proof.
  induction 1 as [|x l Hx Hl IH]; cbn; [constructor|].
  destruct (negb (String.eqb x v)); [|assumption].
  constructor; [|assumption].
  rewrite elem_of_remove. tauto.
Qed.



End JsFacts.

(* ===================================================================== *)
(** * The content generator *)
(* ===================================================================== *)

Section ContentGenerator.
Import Js React TacticalContentGenerator.

Lemma blank_topic (fd : FormData) :
  negb (truthy (VStr (trim (topic fd)))) = true <-> trim (topic fd) = "".
Proof. rewrite negb_true_iff. apply falsy_string. Qed.

Lemma no_tactics (fd : FormData) :
  (List.length (tactics fd) =? 0)%nat = true <-> tactics fd = [].
Proof.
  rewrite Nat.eqb_eq. destruct (tactics fd); cbn; split; congruence.
Qed.

Lemma generateContent_unfold (E : Engine) (snap cur : State) :
  generateContent E snap cur =
    if negb (truthy (VStr (trim (topic (formData snap)))))
       || (List.length (tactics (formData snap)) =? 0)%nat
    then (Normal Done, setError "Please complete all previous required fields." cur)
    else (Normal (Await {| method := "POST"; url := apiUrl;
                           headers := [("Content-Type", "application/json")];
                           data := JsonBody (payload (formData snap)) |}
                        (generateContent_resume E)),
          setContent (VStr "") (setError "" (setLoading true cur))).
Proof.
  unfold generateContent. run_handler.
  now destruct (_ || _).
Qed.

Lemma generateContent_resume_unfold (E : Engine) settled (snap cur : State) :
  generateContent_resume E settled snap cur =
    match awaitContent E settled with
    | Normal c => (Normal tt, setLoading false (setContent c cur))
    | Throw (ErrorObject message _) =>
        (Normal tt,
         setLoading false
           (setError
              (toString
                 (or_else (VStr message)
                    (VStr "Failed to generate content. Please check your network and try again.")))
              cur))
    | Throw (ThrownValue _) =>
        (Normal tt,
         setLoading false
           (setError "An unexpected error occurred during content generation." cur))
    end.
Proof.
  unfold generateContent_resume. run_handler.
  destruct (awaitContent E settled) as [c|[m props|v]]; reflexivity.
Qed.

(** ** Step validation *)

(** C1.  On step 0, [handleNextStep] moves to step 1 exactly when the topic
    is non-empty after trimming; with a blank topic the step stays 0 and
    the error is the request for a "Core Query". *)
Theorem handleNextStep_on_core_step (s : State) (Hstep : currentStep s = 0%Z) :
  let s' := run handleNextStep s in
  (currentStep s' = 1%Z <-> trim (topic (formData s)) <> "")
  /\ (trim (topic (formData s)) = "" ->
      currentStep s' = 0%Z /\ error s' = coreQueryMessage).
Proof.
  unfold handleNextStep, validateStep.
  change (Z.of_nat (List.length steps) - 1)%Z with 3%Z.
  run_handler. rewrite Hstep. cbn.
  destruct (String.eqb_spec (trim (topic (formData s))) "") as [Hblank|Hfilled];
    cbn; rewrite ?Hstep.
  - split; [split; [discriminate | congruence] | auto].
  - split; [split; [congruence | reflexivity] | congruence].
Qed.

Lemma handleNextStep_on_core_step_witness :
  currentStep initialState = 0%Z
  /\ currentStep (run handleNextStep initialState) = 0%Z
  /\ error (run handleNextStep initialState) = coreQueryMessage.
Proof.
  split; [reflexivity|].
  apply (handleNextStep_on_core_step initialState); reflexivity.
Defined.

(** ** Submitting the form *)

(** C2.  With a blank topic or no tactic selected, [generateContent] only
    sets the error: it returns before its [fetch], so no request is issued,
    and neither [loading] nor [content] changes. *)
Theorem generateContent_blocked (E : Engine) (s : State)
    (Hmissing : trim (topic (formData s)) = "" \/ tactics (formData s) = []) :
  let s' := run (generateContent E) s in
  result (generateContent E) s = Normal Done
  /\ issued (result (generateContent E) s) = None
  /\ s' = setError "Please complete all previous required fields." s
  /\ error s' = "Please complete all previous required fields."
  /\ loading s' = loading s
  /\ content s' = content s.
Proof.
  unfold run, result. rewrite generateContent_unfold.
  replace (_ || _) with true; [cbn; auto 10|].
  symmetry. rewrite orb_true_iff, blank_topic, no_tactics. exact Hmissing.
Qed.

Lemma generateContent_blocked_witness :
  issued (result (generateContent V8) initialState) = None
  /\ loading (run (generateContent V8) initialState) = loading initialState.
Proof.
  pose proof (generateContent_blocked V8 initialState (or_introl eq_refl)) as H.
  cbv zeta in H. split; apply H.
Defined.

(** What C4 says does hold whenever [generateContent] runs in the render
    that is on display, as it does from the generate button.  With a
    non-blank topic and at least one tactic it posts to the generate-content
    endpoint a JSON object with exactly the ten fields of [formData], each
    holding the value [formData] has for it. *)
Lemma generateContent_payload (E : Engine) (s : State)
    (Htopic : trim (topic (formData s)) <> "")
    (Htactics : tactics (formData s) <> []) :
  exists fields,
    issued (result (generateContent E) s)
    = Some {| method := "POST"; url := apiUrl;
              headers := [("Content-Type", "application/json")];
              data := JsonBody (VObj fields) |}
    /\ map fst fields
       = ["contentType"; "topic"; "tactics"; "tone"; "length"; "complexity";
          "audience"; "keywords"; "examples"; "humorLevel"]
    /\ lookupField "contentType" fields = VStr (contentType (formData s))
    /\ lookupField "topic" fields = VStr (topic (formData s))
    /\ lookupField "tactics" fields = VArr (map VStr (tactics (formData s)))
    /\ lookupField "tone" fields = VStr (tone (formData s))
    /\ lookupField "length" fields = VStr (length (formData s))
    /\ lookupField "complexity" fields = VStr (complexity (formData s))
    /\ lookupField "audience" fields = VStr (audience (formData s))
    /\ lookupField "keywords" fields = VStr (keywords (formData s))
    /\ lookupField "examples" fields = VStr (examples (formData s))
    /\ lookupField "humorLevel" fields = VStr (humorLevel (formData s)).
Proof.
  unfold result. rewrite generateContent_unfold.
  replace (_ || _) with false.
  - eexists. split; [reflexivity|]. cbn. auto 15.
  - symmetry. apply orb_false_iff. split.
    + apply negb_false_iff, truthy_string, Htopic.
    + apply Nat.eqb_neq. destruct (tactics (formData s)); cbn; congruence.
Qed.

Lemma generateContent_payload_witness :
  exists fields,
    issued (result (generateContent V8) Sample.filledForm)
    = Some {| method := "POST"; url := apiUrl;
              headers := [("Content-Type", "application/json")];
              data := JsonBody (VObj fields) |}
    /\ lookupField "topic" fields = VStr "Edge AI"
    /\ lookupField "tactics" fields = VArr [VStr "swot"].
Proof.
  destruct (generateContent_payload V8 Sample.filledForm)
    as (fields & Hsent & _ & _ & Htopic & Htactics & _); try discriminate.
  exists fields. repeat split; assumption.
Defined.

(** C4, where the code departs from it.  [regenerateWithEnhancement] adds a
    tactic to the form and arms a timer for [generateContent]; the comment
    at the timer says the delay is there for the update to be processed
    before the content is generated again.  The [generateContent] that the
    timer calls is the one of the render of the click, though.  With content
    for ['swot'] on display and ['pestle'] drawn, the form shows both
    tactics when the timer fires, and the request posted then carries
    ['swot'] alone: its [tactics] field is not the one of the current
    [formData]. *)
Theorem generateContent_payload_from_timer :
  let fired := fire V8 Sample.clicked (TimerFires 0) in
  reachable V8 Sample.shown
  /\ enabled Sample.shown (Regenerate 0) = true
  /\ enabled Sample.clicked (TimerFires 0) = true
  /\ timers Sample.clicked = [view Sample.shown]
  /\ fired = startGenerate V8 (view Sample.shown) Sample.clicked []
  /\ inflight fired = [view Sample.shown]
  /\ trim (topic (formData (view Sample.clicked))) = "Edge AI"
  /\ tactics (formData (view Sample.clicked)) = ["swot"; "pestle"]
  /\ (exists fields,
        issued (fst (generateContent V8 (view Sample.shown) (view Sample.clicked)))
        = Some {| method := "POST"; url := apiUrl;
                  headers := [("Content-Type", "application/json")];
                  data := JsonBody (VObj fields) |}
        /\ lookupField "topic" fields = VStr (topic (formData (view Sample.clicked)))
        /\ lookupField "tactics" fields = VArr [VStr "swot"]
        /\ lookupField "tactics" fields
           <> VArr (map VStr (tactics (formData (view Sample.clicked))))).
Proof.
  cbv zeta. split.
  { unfold Sample.shown, Sample.busy, Sample.toBusy. cbn [fold_left].
    repeat (apply reachable_fire; [|reflexivity]).
    apply reachable_initial. }
  do 7 (split; [vm_compute; reflexivity|]).
  rewrite generateContent_unfold.
  eexists. split; [vm_compute; reflexivity|].
  repeat split; try (vm_compute; reflexivity).
  vm_compute. discriminate.
Qed.

(** ** The response *)

Lemma complete_generateContent (E : Engine) (s : State) settled
    (Htopic : trim (topic (formData s)) <> "")
    (Htactics : tactics (formData s) <> []) :
  complete (generateContent E) settled s
  = snd (generateContent_resume E settled s
           (setContent (VStr "") (setError "" (setLoading true s)))).
Proof.
  unfold complete. rewrite generateContent_unfold.
  replace (_ || _) with false; [reflexivity|].
  symmetry. apply orb_false_iff. split.
  - apply negb_false_iff, truthy_string, Htopic.
  - apply Nat.eqb_neq. destruct (tactics (formData s)); cbn; congruence.
Qed.

Lemma awaitContent_ok (E : Engine) (response : Response) (data : value)
    (Hok : ok response = true) (Hjson : json response = Normal data)
    (Hnull : data <> VNull) (Hundef : data <> VUndefined) :
  awaitContent E (Normal response)
  = if truthy (getPropOpt data "content")
    then Normal (getPropOpt data "content")
    else Throw (newError (VStr "No content received from backend server")).
Proof.
  unfold awaitContent. cbn. rewrite Hok, Hjson. cbn.
  destruct data; try congruence; cbn; try reflexivity.
  now destruct (truthy (lookupField "content" fields)).
Qed.

(** C5, where the code departs from it.  A 200 response whose body is the
    JSON text [null] has no [content] field, yet the error displayed is not
    'No content received from backend server': the read [data.content]
    throws before the check for missing content is reached, and the message
    of that [TypeError] is displayed. *)
Theorem generateContent_null_body :
  let s' := complete (generateContent V8) (Normal Sample.nullBody) Sample.filledForm in
  ok Sample.nullBody = true
  /\ json Sample.nullBody = Normal VNull
  /\ getPropOpt VNull "content" = VUndefined
  /\ error s' = "Cannot read properties of null (reading 'content')"
  /\ error s' <> "No content received from backend server".
Proof. cbv zeta. repeat split; try reflexivity. vm_compute. discriminate. Qed.

(** The same on any engine: the message displayed is the one the engine
    gives its [TypeError], or the network fallback should that be empty. *)
Lemma generateContent_null_body_any_engine (E : Engine) :
  error (complete (generateContent E) (Normal Sample.nullBody) Sample.filledForm)
  = toString
      (or_else (VStr (typeErrorMessage E "data" VNull "content"))
         (VStr "Failed to generate content. Please check your network and try again.")).
Proof. reflexivity. Qed.

(** What C5 says does hold for every ok response whose body parses to
    anything but [null]: a truthy [content] field (for a string: a non-empty
    one) is stored as it is as the content to display; with the field absent
    or falsy the error is 'No content received from backend server' and the
    content to display stays the empty string. *)
Lemma generateContent_ok_response (E : Engine) (s : State)
    (response : Response) (data : value)
    (Htopic : trim (topic (formData s)) <> "")
    (Htactics : tactics (formData s) <> [])
    (Hok : ok response = true) (Hjson : json response = Normal data)
    (Hnull : data <> VNull) (Hundef : data <> VUndefined) :
  let s' := complete (generateContent E) (Normal response) s in
  let c := getPropOpt data "content" in
  (truthy c = true -> content s' = c /\ error s' = "")
  /\ (truthy c = false ->
      error s' = "No content received from backend server" /\ content s' = VStr "").
Proof.
  cbv zeta.
  rewrite complete_generateContent, generateContent_resume_unfold by assumption.
  rewrite (awaitContent_ok E response data) by assumption.
  destruct (truthy (getPropOpt data "content")); cbn; split; intros; try discriminate; auto.
Qed.

Lemma generateContent_ok_response_witness :
  content (complete (generateContent V8) (Normal Sample.contentBody) Sample.filledForm)
  = VStr "# Edge AI".
Proof.
  eapply (generateContent_ok_response V8 Sample.filledForm Sample.contentBody
            (VObj [("content", VStr "# Edge AI")]));
    try reflexivity; try discriminate.
Defined.

(** ** Resetting the form *)

(** C8, where the code departs from it.  The comment on [clearForm] says it
    resets the entire form and state to the initial values, but it makes no
    call of [setLoading].  The reset button is live on the last step also
    while a request is in flight; pressed then, it leaves the loading flag
    up, and the view is the initial one but for that flag. *)
Theorem clearForm_keeps_loading :
  let cleared := view (fire V8 Sample.busy Clear) in
  reachable V8 Sample.busy
  /\ enabled Sample.busy Clear = true
  /\ loading (view Sample.busy) = true
  /\ cleared = run clearForm (view Sample.busy)
  /\ loading cleared = true
  /\ loading initialState = false
  /\ cleared = setLoading true initialState
  /\ cleared <> initialState.
Proof.
  cbv zeta.
  split; [|repeat split; try reflexivity; discriminate].
  unfold Sample.busy, Sample.toBusy. cbn [fold_left].
  repeat (apply reachable_fire; [|reflexivity]).
  apply reachable_initial.
Qed.

(** What C8 says does hold of every state variable but the loading flag.
    From any state, [clearForm] puts [formData] back to its defaults,
    empties the content and the error, returns to step 0 and hides the
    advanced options; the loading flag is left as it is. *)
Lemma clearForm_resets (s : State) :
  let s' := run clearForm s in
  formData s' = {| contentType := "strategy"; topic := ""; tactics := [];
                   tone := "professional"; length := "medium";
                   complexity := "intermediate"; audience := ""; keywords := "";
                   examples := "yes"; humorLevel := "none" |}
  /\ content s' = VStr ""
  /\ error s' = ""
  /\ currentStep s' = 0%Z
  /\ showAdvanced s' = false
  /\ loading s' = loading s
  /\ s' = setLoading (loading s) initialState.
Proof. cbv zeta. repeat split. Qed.

(** So the view after [clearForm] is the initial one exactly when the
    loading flag was down. *)
Lemma clearForm_initial_iff (s : State) :
  run clearForm s = initialState <-> loading s = false.
Proof.
  change (run clearForm s) with (setLoading (loading s) initialState).
  destruct (loading s); split; try reflexivity; discriminate.
Qed.

(** ** Selecting tactics *)

Lemma handleTacticSelect_formData (v : string) (snap cur : State) :
  formData (snd (handleTacticSelect v snap cur)) = toggleTactic v (formData cur).
Proof.
  unfold handleTacticSelect, clearErrorIfSet. run_handler.
  now destruct (negb _).
Qed.

Lemma toggleTactic_NoDup (v : string) (fd : FormData) :
  NoDup (tactics fd) -> NoDup (tactics (toggleTactic v fd)).
Proof.
  intros Hl. unfold toggleTactic. cbn.
  destruct (includes (tactics fd) v) eqn:Hv.
  - now apply NoDup_remove.
  - apply includes_not_elem_of in Hv.
    apply NoDup_app. repeat split; [assumption | | apply NoDup_singleton].
    intros x Hx ->%list_elem_of_singleton. contradiction.
Qed.

Lemma unusedTactics_fresh (fd : FormData) (i : nat) (t : string) :
  nth_error (unusedTactics fd) i = Some t -> t ∉ tactics fd.
Proof.
  intros Ht%nth_error_In. unfold unusedTactics in Ht.
  apply filter_In in Ht as [_ Ht]. apply negb_true_iff in Ht.
  now apply includes_not_elem_of.
Qed.

Lemma regenerate_NoDup (i : nat) (s : State) :
  NoDup (tactics (formData s)) ->
  NoDup (tactics (formData (run (regenerateWithEnhancement i) s))).
Proof.
  intros Hl. unfold regenerateWithEnhancement. run_handler.
  case_if; [|assumption].
  case_if; [|assumption].
  destruct (nth_error _ i) as [t|] eqn:Ht; [|assumption].
  cbn. apply NoDup_app. repeat split; [assumption | | apply NoDup_singleton].
  intros x Hx ->%list_elem_of_singleton.
  now apply (unusedTactics_fresh _ _ _ Ht).
Qed.

Lemma generateContent_formData (E : Engine) (snap cur : State) :
  formData (snd (generateContent E snap cur)) = formData cur.
Proof. rewrite generateContent_unfold. now destruct (_ || _). Qed.

Lemma generateContent_resume_formData (E : Engine) settled (snap cur : State) :
  formData (snd (generateContent_resume E settled snap cur)) = formData cur.
Proof.
  rewrite generateContent_resume_unfold.
  now destruct (awaitContent E settled) as [c|[m props|v]].
Qed.

(** The tactics shown are duplicate-free in every state the component can
    be brought to. *)
Lemma tactics_NoDup_reachable (E : Engine) (sys : System) :
  reachable E sys -> NoDup (tactics (formData (view sys))).
Proof.
  induction 1 as [|sys e Hsys IH Hen]; [constructor|].
  destruct e; unfold fire; cbn [view].
  - unfold handleChange, clearErrorIfSet. run_handler. now destruct (negb _).
  - unfold run. rewrite handleTacticSelect_formData. now apply toggleTactic_NoDup.
  - exact IH.
  - unfold handleNextStep, validateStep. run_handler.
    repeat (case_match; cbn; simplify_eq); exact IH.
  - unfold handlePrevStep. run_handler. now case_if.
  - unfold startGenerate. cbn [view]. now rewrite generateContent_formData.
  - constructor.
  - now apply regenerate_NoDup.
  - destruct (timers sys !! k); [|exact IH].
    unfold startGenerate. cbn [view]. now rewrite generateContent_formData.
  - destruct (inflight sys !! k); [|exact IH].
    cbn [view]. now rewrite generateContent_resume_formData.
Qed.




End ContentGenerator.

(* ===================================================================== *)
(** * The download *)
(* ===================================================================== *)

Section Download.
Import Js React TacticalContentGenerator FileNameSpec.

Lemma append_String (c : ascii) (a b : string) :
  String c a +:+ b = String c (a +:+ b).
Proof. reflexivity. Qed.

Lemma append_empty (b : string) : "" +:+ b = b.
Proof. reflexivity. Qed.

Lemma skipRun_trimStart (r s : string) :
  skipRun r s = replaceWhiteSpaceRuns r (trimStart s).
Proof.
  induction s as [|c s IH]; cbn; [reflexivity|].
  destruct (isWhiteSpace c) eqn:Hc; [exact IH|].
  cbn. now rewrite Hc.
Qed.

Lemma trimStart_starts (s : string) : startsWithWhiteSpace (trimStart s) = false.
Proof.
  induction s as [|c s IH]; cbn; [reflexivity|].
  destruct (isWhiteSpace c) eqn:Hc; [exact IH|]. exact Hc.
Qed.

Lemma trimStart_length (s : string) :
  String.length (trimStart s) <= String.length s.
Proof.
  induction s as [|c s IH]; cbn; [lia|].
  destruct (isWhiteSpace c); cbn; lia.
Qed.

Lemma leading_blanks (s : string) :
  exists blanks, s = blanks +:+ trimStart s /\ allWhiteSpace blanks = true.
Proof.
  induction s as [|c s (blanks & Hs & Hb)]; cbn.
  - now exists "".
  - destruct (isWhiteSpace c) eqn:Hc.
    + exists (String c blanks). cbn. rewrite Hc, Hb, append_String.
      split; [now f_equal | reflexivity].
    + now exists "".
Qed.

Lemma trimStart_blanks (blanks rest : string) :
  allWhiteSpace blanks = true ->
  startsWithWhiteSpace rest = false ->
  trimStart (blanks +:+ rest) = rest.
Proof.
  intros Hb Hr. induction blanks as [|c blanks IH];
    rewrite ?append_empty, ?append_String; cbn in *.
  - destruct rest as [|c rest]; cbn in *; [reflexivity|]. now rewrite Hr.
  - apply andb_true_iff in Hb as [-> Hb]. auto.
Qed.

(** The scan of [replace] yields the string that the specification
    describes. *)
Lemma replace_runsReplaced (s : string) :
  runsReplaced s (replaceWhiteSpaceRuns "-" s).
Proof.
  remember (String.length s) as n eqn:Hn.
  revert s Hn. induction n as [n IH] using lt_wf_ind. intros s ->.
  destruct s as [|c s]; cbn; [constructor|].
  destruct (isWhiteSpace c) eqn:Hc.
  - rewrite skipRun_trimStart, append_String, append_empty.
    destruct (leading_blanks s) as (blanks & Hs & Hb).
    rewrite Hs at 1. rewrite <- append_String.
    apply (runsReplaced_run (String c blanks)).
    + discriminate.
    + cbn. now rewrite Hc.
    + apply trimStart_starts.
    + apply (IH (String.length (trimStart s))); [|reflexivity].
      pose proof (trimStart_length s). cbn. lia.
  - constructor; [assumption|].
    apply (IH (String.length s)); [cbn; lia | reflexivity].
Qed.

(** The specification describes one string only. *)
Lemma runsReplaced_replace (s t : string) :
  runsReplaced s t -> t = replaceWhiteSpaceRuns "-" s.
Proof.
  induction 1 as [|c s t Hc _ IH|blanks rest t Hne Hb Hr _ IH]; cbn.
  - reflexivity.
  - rewrite Hc. now f_equal.
  - destruct blanks as [|c blanks]; [congruence|].
    rewrite append_String. cbn in *. apply andb_true_iff in Hb as [-> Hb].
    rewrite skipRun_trimStart, trimStart_blanks by assumption.
    rewrite append_String, append_empty. now f_equal.
Qed.

Lemma replace_empty (s : string) :
  toLowerCase (replaceWhiteSpaceRuns "-" s) = "" <-> s = "".
Proof.
  destruct s as [|c s]; cbn; [tauto|].
  destruct (isWhiteSpace c); rewrite ?append_String; cbn; split; discriminate.
Qed.

(** C7.  With content to save, [downloadMarkdown] saves it under the name
    [tactical-content-], then the topic with every white-space run replaced
    by a hyphen and lower-cased, or [untitled] when that string is empty
    (which is when the topic is), then [.md]; without content it does
    nothing.  It never changes the state. *)
Theorem downloadMarkdown_file_name (s : State) (t : string)
    (Hruns : runsReplaced (topic (formData s)) t) :
  (truthy (content s) = false -> result downloadMarkdown s = Normal None)
  /\ (truthy (content s) = true ->
      exists d,
        result downloadMarkdown s = Normal (Some d)
        /\ download d
           = "tactical-content-"
             +:+ (if String.eqb (toLowerCase t) "" then "untitled" else toLowerCase t)
             +:+ ".md"
        /\ blobParts d = [content s]
        /\ blobType d = "text/markdown")
  /\ (toLowerCase t = "" <-> topic (formData s) = "")
  /\ run downloadMarkdown s = s.
Proof.
  apply runsReplaced_replace in Hruns as ->.
  unfold result, run, downloadMarkdown, mbind, handler_bind, mret, handler_ret, read.
  cbn. destruct (truthy (content s)); cbn.
  - split; [discriminate|]. split; [|split; [apply replace_empty | reflexivity]].
    intros _. eexists. split; [reflexivity|].
    split; [|split; reflexivity].
    cbn. unfold or_else. cbn.
    now destruct (String.eqb _ "").
  - split; [reflexivity|]. split; [discriminate|].
    split; [apply replace_empty | reflexivity].
Qed.

Lemma downloadMarkdown_file_name_witness :
  exists d,
    result downloadMarkdown (setContent (VStr "# Edge AI") Sample.filledForm)
    = Normal (Some d)
    /\ download d = "tactical-content-edge-ai.md".
Proof.
  destruct (downloadMarkdown_file_name
              (setContent (VStr "# Edge AI") Sample.filledForm) "Edge-AI")
    as (_ & Hname & _).
  - apply (replace_runsReplaced "Edge AI").
  - destruct (Hname eq_refl) as (d & Hd & Hfile & _).
    exists d. split; [exact Hd | exact Hfile].
Defined.

End Download.


(* ===================================================================== *)
(** * The file uploader *)
(* ===================================================================== *)

Section Uploader.
Import Js React FileUploader.

(** C9.  [handleFileSelection] keeps the file, with its name, exactly when
    its MIME type is that of a PDF or of a DOCX document; any other type
    leaves no file selected and sets the error on the unsupported type.
    Either way the insight and analysis data are cleared, and so is the
    previous error: an accepted file leaves none. *)
Theorem handleFileSelection_accepts (f : File) (s : State) :
  let s' := run (handleFileSelection f) s in
  let accepted :=
    type f = "application/pdf"
    \/ type f = "application/vnd.openxmlformats-officedocument.wordprocessingml.document" in
  (file s' = Some f <-> accepted)
  /\ (accepted -> fileName s' = name f /\ error s' = VNull)
  /\ (~ accepted ->
      file s' = None /\ fileName s' = ""
      /\ error s' = VStr "Unsupported file type. Please upload a PDF or DOCX file.")
  /\ insightData s' = VNull
  /\ analysisData s' = VNull.
Proof.
  cbv zeta. unfold run, handleFileSelection, mbind, handler_bind, update.
  cbn -[String.eqb].
  destruct (String.eqb_spec "application/pdf" (type f)) as [Hpdf|Hpdf];
    [|destruct (String.eqb_spec
                  "application/vnd.openxmlformats-officedocument.wordprocessingml.document"
                  (type f)) as [Hdocx|Hdocx]];
    cbn; repeat split; auto; try tauto; try discriminate; intuition congruence.
Qed.

Example picture_is_refused :
  let s' := run (handleFileSelection Sample.picture) Sample.selected in
  file s' = None
  /\ fileName s' = ""
  /\ error s' = VStr "Unsupported file type. Please upload a PDF or DOCX file.".
Proof. repeat split. Qed.

Example network_error_is_reported :
  let s' := complete handleAnalyze (Throw Sample.networkError) Sample.selected in
  error s' = VStr "Failed to analyze. Please try again."
  /\ loadingAnalysis s' = false
  /\ requestDisabled s' = false.
Proof. repeat split. Qed.

Lemma commonRequest_rejected (endpoint : string) setter loaderSetter (t : tab)
    (err : thrown) (snap cur : State) :
  commonRequest_resume endpoint setter loaderSetter t (Throw err) snap cur
  = (Normal tt,
     loaderSetter false
       (setError
          (if isAxiosError err
           then or_else (serverError err)
                  (VStr ("Failed to " +:+ endpoint +:+ ". Please try again."))
           else VStr ("An unexpected error occurred during " +:+ endpoint +:+ "."))
          cur)).
Proof.
  unfold commonRequest_resume, tryCatchFinally, mbind, handler_bind, lift, update.
  cbn. now destruct (isAxiosError err).
Qed.

Lemma commonRequest_fulfilled (endpoint : string) setter loaderSetter (t : tab)
    (res : AxiosResponse) (snap cur : State) :
  commonRequest_resume endpoint setter loaderSetter t (Normal res) snap cur
  = (Normal tt, loaderSetter false (setActiveTab t (setter (res_data res) cur))).
Proof. reflexivity. Qed.

Lemma or_else_truthy (a : value) (m : string) :
  m <> "" -> truthy (or_else a (VStr m)) = true.
Proof.
  intros Hm. unfold or_else. destruct (truthy a) eqn:Ha; [exact Ha|].
  now apply truthy_string.
Qed.

Lemma or_else_isString (a : value) (m : string) :
  isString (or_else a (VStr m)) = true <-> truthy a = false \/ isString a = true.
Proof.
  unfold or_else. destruct (truthy a); cbn; [|tauto].
  split; [auto | intros [?|?]; congruence].
Qed.

(** What the [catch] block of an uploader request stores: a truthy value,
    which is a string unless the error response carries a truthy [error]
    field that is not one. *)
Lemma uploader_error_stored (endpoint : string) (err : thrown) :
  let e := if isAxiosError err
           then or_else (serverError err)
                  (VStr ("Failed to " +:+ endpoint +:+ ". Please try again."))
           else VStr ("An unexpected error occurred during " +:+ endpoint +:+ ".") in
  truthy e = true
  /\ (isString e = true
      <-> isAxiosError err = false \/ truthy (serverError err) = false
          \/ isString (serverError err) = true).
Proof.
  cbv zeta. destruct (isAxiosError err).
  - split; [now apply or_else_truthy|].
    rewrite or_else_isString. intuition congruence.
  - split; [reflexivity|]. cbn. tauto.
Qed.

End Uploader.


(* ===================================================================== *)
(** * Failed requests *)
(* ===================================================================== *)

Section FailedRequests.
Import Js React.

Lemma awaitContent_failed (E : Engine) (settled : completion Response) :
  TacticalContentGenerator.fetchFailed settled = true ->
  exists err, TacticalContentGenerator.awaitContent E settled = Throw err.
Proof.
  destruct settled as [[o st j]|e]; cbn; [|eauto].
  intros ->%negb_true_iff. cbn.
  destruct j as [data|e']; cbn.
  - destruct (getProp E "errorData" data "message"); cbn; eauto.
  - eauto.
Qed.

Lemma caught_message_nonempty (m fallback : string) :
  fallback <> "" -> toString (or_else (VStr m) (VStr fallback)) <> "".
Proof.
  intros Hf. unfold or_else. destruct (truthy (VStr m)) eqn:Hm; cbn.
  - now apply truthy_string.
  - exact Hf.
Qed.

(** C3, where the code departs from it.  When the insights request is
    answered by an error response whose [error] field is an object, the
    handler does catch the rejection and does reset its loading flag, but
    what it stores in [error] is that object, not a string. *)
Theorem handleInsights_error_not_a_string :
  let s' := complete FileUploader.handleInsights (Throw Sample.structuredError)
              Sample.selected in
  FileUploader.isAxiosError Sample.structuredError = true
  /\ FileUploader.error s' = VObj [("message", VStr "File too large")]
  /\ isString (FileUploader.error s') = false
  /\ FileUploader.loadingInsights s' = false.
Proof. cbv zeta. repeat split. Qed.

(** What C3 says does hold in this form.  No request handler lets an
    exception escape, and each ends with its loading flag reset, however its
    request settled.  A failed request leaves an error to display: for
    [generateContent] a non-empty string; for the insights and analyze
    requests a truthy value, the [error] field of the error response when
    that is truthy and a fixed message otherwise, hence a string unless the
    server sent a truthy non-string there.  A request button that was live
    when the request started is live again. *)
Lemma failed_request_is_reported (E : Engine) :
  (forall settled snap cur,
      let r := TacticalContentGenerator.generateContent_resume E settled snap cur in
      r.1 = Normal tt /\ TacticalContentGenerator.loading r.2 = false)
  /\ (forall settled snap cur,
        TacticalContentGenerator.fetchFailed settled = true ->
        TacticalContentGenerator.error
          (TacticalContentGenerator.generateContent_resume E settled snap cur).2 <> "")
  /\ (forall settled snap cur,
        let r := FileUploader.commonRequest_resume "insights"
                   FileUploader.setInsightData FileUploader.setLoadingInsights
                   FileUploader.insights settled snap cur in
        r.1 = Normal tt /\ FileUploader.loadingInsights r.2 = false)
  /\ (forall settled snap cur,
        let r := FileUploader.commonRequest_resume "analyze"
                   FileUploader.setAnalysisData FileUploader.setLoadingAnalysis
                   FileUploader.analysis settled snap cur in
        r.1 = Normal tt /\ FileUploader.loadingAnalysis r.2 = false)
  /\ (forall err snap cur,
        let e := FileUploader.error
                   (FileUploader.commonRequest_resume "insights"
                      FileUploader.setInsightData FileUploader.setLoadingInsights
                      FileUploader.insights (Throw err) snap cur).2 in
        truthy e = true
        /\ (isString e = true
            <-> FileUploader.isAxiosError err = false
                \/ truthy (FileUploader.serverError err) = false
                \/ isString (FileUploader.serverError err) = true))
  /\ (forall err snap cur,
        let e := FileUploader.error
                   (FileUploader.commonRequest_resume "analyze"
                      FileUploader.setAnalysisData FileUploader.setLoadingAnalysis
                      FileUploader.analysis (Throw err) snap cur).2 in
        truthy e = true
        /\ (isString e = true
            <-> FileUploader.isAxiosError err = false
                \/ truthy (FileUploader.serverError err) = false
                \/ isString (FileUploader.serverError err) = true))
  /\ (forall err s,
        FileUploader.requestDisabled s = false ->
        FileUploader.requestDisabled
          (complete FileUploader.handleInsights (Throw err) s) = false
        /\ FileUploader.requestDisabled
             (complete FileUploader.handleAnalyze (Throw err) s) = false).
Proof.
  repeat apply conj.
  - intros settled snap cur. cbv zeta.
    rewrite generateContent_resume_unfold.
    now destruct (TacticalContentGenerator.awaitContent E settled) as [c|[m props|v]].
  - intros settled snap cur Hfail.
    rewrite generateContent_resume_unfold.
    destruct (awaitContent_failed E settled Hfail) as [[m props|v] ->]; cbn.
    + now apply caught_message_nonempty.
    + discriminate.
  - intros [res|err] snap cur; cbv zeta.
    + now rewrite commonRequest_fulfilled.
    + now rewrite commonRequest_rejected.
  - intros [res|err] snap cur; cbv zeta.
    + now rewrite commonRequest_fulfilled.
    + now rewrite commonRequest_rejected.
  - intros err snap cur. cbv zeta. rewrite commonRequest_rejected.
    apply (uploader_error_stored "insights").
  - intros err snap cur. cbv zeta. rewrite commonRequest_rejected.
    apply (uploader_error_stored "analyze").
  - intros err s Hlive.
    unfold FileUploader.requestDisabled, FileUploader.isLoading in Hlive.
    destruct (FileUploader.file s) as [f|] eqn:Hfile; [|discriminate].
    cbn in Hlive. apply orb_false_iff in Hlive as [Hins Hana].
    unfold complete, FileUploader.handleInsights, FileUploader.handleAnalyze,
      FileUploader.commonRequestConfig, mbind, handler_bind, mret, handler_ret,
      read, update.
    cbn -[FileUploader.commonRequest_resume]. rewrite Hfile.
    cbn -[FileUploader.commonRequest_resume]. rewrite !commonRequest_rejected.
    unfold FileUploader.requestDisabled, FileUploader.isLoading. cbn.
    rewrite Hfile, Hins, Hana. split; reflexivity.
Qed.

End FailedRequests.

(* ===================================================================== *)
(** * The service wrappers *)
(* ===================================================================== *)

Section Service.
Import Js Api.

(** C6.  Each wrapper posts to its endpoint and, when the request is
    fulfilled with a JSON object as body, returns the designated field of
    that body as it is: [text] for [uploadFile], [result] for [rewriteText]
    and [digestText], [topics] for [generateTopics]. *)
Theorem wrappers_return_their_field (E : Engine) (file : File) (text : string)
    (fields : list (string * value)) :
  let fulfilled := Normal {| res_data := VObj fields |} in
  (url (sent (uploadFile E file)) = "http://localhost:5000/upload"
   /\ settle (uploadFile E file) fulfilled = Normal (lookupField "text" fields))
  /\ (url (sent (rewriteText E text)) = "http://localhost:5000/rewrite"
      /\ settle (rewriteText E text) fulfilled = Normal (lookupField "result" fields))
  /\ (url (sent (digestText E text)) = "http://localhost:5000/digest"
      /\ settle (digestText E text) fulfilled = Normal (lookupField "result" fields))
  /\ (url (sent (generateTopics E text)) = "http://localhost:5000/topics"
      /\ settle (generateTopics E text) fulfilled = Normal (lookupField "topics" fields)).
Proof. cbv zeta. repeat split. Qed.

End Service.


(* ===================================================================== *)
(** * The content generator: navigation, invariants, regeneration *)
(* ===================================================================== *)

Section ContentGeneratorMore.
Import Js React TacticalContentGenerator FormFields.

Lemma coreQueryMessage_nonempty : coreQueryMessage <> "".
Proof. discriminate. Qed.

Lemma frameworkMessage_nonempty : frameworkMessage <> "".
Proof. discriminate. Qed.

Lemma validateStep_unfold (i : Z) (snap cur : State) :
  validateStep i snap cur
  = if isCurrentStepValid i snap
    then (Normal true, setError "" cur)
    else (Normal false,
          setError (if (i =? 0)%Z then coreQueryMessage else frameworkMessage) cur).
Proof.
  unfold validateStep, isCurrentStepValid. run_handler.
  destruct i as [|[[p|p|]|[p|p|]|]|p]; cbn; try reflexivity.
  - now destruct (String.eqb _ "").
  - now destruct (tactics (formData snap)).
Qed.

(** X1.  The test that colours the Next button and the validation run on
    pressing it agree on every step and state: [validateStep] returns what
    [isCurrentStepValid] returns, and it leaves an error message exactly
    when it rejects the step. *)
Theorem validateStep_agrees (i : Z) (s : State) :
  result (validateStep i) s = Normal (isCurrentStepValid i s)
  /\ (error (run (validateStep i) s) = "" <-> isCurrentStepValid i s = true).
Proof.
  unfold result, run. rewrite validateStep_unfold.
  destruct (isCurrentStepValid i s); cbn.
  - split; [reflexivity | tauto].
  - split; [reflexivity|]. split; [|discriminate].
    destruct (i =? 0)%Z; intros H; [now apply coreQueryMessage_nonempty in H
                                     | now apply frameworkMessage_nonempty in H].
Qed.

Lemma handleNextStep_unfold (snap cur : State) :
  handleNextStep snap cur
  = let i := currentStep snap in
    if isCurrentStepValid i snap
    then if (i <? 3)%Z
         then (Normal tt, setError "" (setCurrentStep (fun prev => prev + 1)%Z (setError "" cur)))
         else (Normal tt, setError "" cur)
    else (Normal tt,
          setError (if (i =? 0)%Z then coreQueryMessage else frameworkMessage) cur).
Proof.
  unfold handleNextStep.
  change (Z.of_nat (List.length steps) - 1)%Z with 3%Z.
  unfold mbind, handler_bind, read. rewrite validateStep_unfold. cbv zeta.
  destruct (isCurrentStepValid _ snap); [|reflexivity].
  now destruct (_ <? 3)%Z.
Qed.

Lemma handlePrevStep_unfold (snap cur : State) :
  handlePrevStep snap cur
  = if (0 <? currentStep snap)%Z
    then (Normal tt, setError "" (setCurrentStep (fun prev => prev - 1)%Z cur))
    else (Normal tt, cur).
Proof. unfold handlePrevStep. run_handler. now destruct (0 <? _)%Z. Qed.

(** X2.  Navigation.  Next moves one step forward exactly when the step is
    valid and is not the last one, and Previous one step back exactly when
    the step is not the first; otherwise the step stays.  Neither changes
    the form data, the content or the loading flag, and Previous after a
    Next that moved brings the step back. *)
Theorem navigation_steps (s : State) :
  let next := run handleNextStep s in
  let prev := run handlePrevStep s in
  currentStep next
  = (if isCurrentStepValid (currentStep s) s && (currentStep s <? 3)%Z
     then currentStep s + 1 else currentStep s)%Z
  /\ currentStep prev
     = (if (0 <? currentStep s)%Z then currentStep s - 1 else currentStep s)%Z
  /\ (formData next = formData s /\ content next = content s /\ loading next = loading s)
  /\ (formData prev = formData s /\ content prev = content s /\ loading prev = loading s)
  /\ ((0 <= currentStep s)%Z -> currentStep next <> currentStep s ->
      currentStep (run handlePrevStep next) = currentStep s).
Proof.
  cbv zeta. unfold run. rewrite handleNextStep_unfold, !handlePrevStep_unfold.
  cbv zeta.
  destruct (isCurrentStepValid (currentStep s) s); cbn;
    destruct (currentStep s <? 3)%Z eqn:Hlast; cbn;
    destruct (0 <? currentStep s)%Z eqn:Hfirst; cbn;
    repeat split; try congruence; intros Hpos Hmoved; try congruence.
  all: replace (0 <? currentStep s + 1)%Z with true by (symmetry; apply Z.ltb_lt; lia).
  all: cbn; lia.
Qed.

Lemma navigation_steps_witness :
  currentStep (run handlePrevStep (run handleNextStep Sample.filledForm)) = 2%Z.
Proof.
  pose proof (navigation_steps (run handlePrevStep Sample.filledForm)) as H.
  cbv zeta in H. destruct H as (_ & _ & _ & _ & H).
  apply (H ltac:(discriminate) ltac:(discriminate)).
Defined.

(** ** What every reachable state satisfies *)

Lemma handleChange_unfold (n : inputName) (v : string) (snap cur : State) :
  handleChange n v snap cur
  = (Normal tt,
     (if truthy (VStr (error snap)) then setError "" else fun s => s)
       (setFormData (setField n v) cur)).
Proof.
  unfold handleChange, clearErrorIfSet. run_handler. now destruct (negb _).
Qed.

Lemma handleTacticSelect_unfold (v : string) (snap cur : State) :
  handleTacticSelect v snap cur
  = (Normal tt,
     (if truthy (VStr (error snap)) then setError "" else fun s => s)
       (setFormData (toggleTactic v) cur)).
Proof.
  unfold handleTacticSelect, clearErrorIfSet. run_handler. now destruct (negb _).
Qed.

Lemma regenerate_unfold (i : nat) (snap cur : State) :
  regenerateWithEnhancement i snap cur
  = (Normal tt,
     match tactics (formData snap), nth_error (unusedTactics (formData snap)) i with
     | _ :: _, Some t => setFormData (fun prev => setTactics (tactics prev ++ [t]) prev) cur
     | _, _ => cur
     end).
Proof.
  unfold regenerateWithEnhancement, mbind, handler_bind, read, update, mret, handler_ret.
  cbv beta iota.
  generalize (unusedTactics (formData snap)). intros us.
  destruct (tactics (formData snap)) as [|x l]; [reflexivity|].
  destruct us as [|u us]; [now destruct i|].
  cbn [List.length Nat.ltb Nat.leb].
  now destruct (nth_error (u :: us) i).
Qed.

Lemma toggleTactic_options (v : string) (fd : FormData) :
  v ∈ map fst tacticalOptions ->
  (forall t, t ∈ tactics fd -> t ∈ map fst tacticalOptions) ->
  forall t, t ∈ tactics (toggleTactic v fd) -> t ∈ map fst tacticalOptions.
Proof.
  intros Hv Hfd t. unfold toggleTactic. cbn. destruct (includes (tactics fd) v).
  - intros [Ht _]%elem_of_remove. auto.
  - intros [Ht| ->%list_elem_of_singleton]%elem_of_app; auto.
Qed.

Lemma unusedTactics_options (fd : FormData) (i : nat) (t : string) :
  nth_error (unusedTactics fd) i = Some t -> t ∈ map fst tacticalOptions.
Proof.
  intros Ht%nth_error_In. unfold unusedTactics in Ht.
  apply filter_In in Ht as [Ht _]. now apply list_elem_of_In.
Qed.

Lemma setField_keeps (n : inputName) (v : string) (fd : FormData) :
  tactics (setField n v fd) = tactics fd
  /\ (n <> NTopic -> topic (setField n v fd) = topic fd).
Proof. split; [reflexivity|]. destruct n; cbn; congruence. Qed.

(** The facts that hold of the component whatever the user and the network
    do: the step stays within the four steps; past the first step the topic
    is not blank and past the second a tactic is selected; the tactics are
    among the eight options; and the loading flag is up only while a request
    is in flight. *)
Lemma reachable_invariant (E : Engine) (sys : System) :
  reachable E sys ->
  let s := view sys in
  (0 <= currentStep s <= 3)%Z
  /\ ((1 <= currentStep s)%Z -> trim (topic (formData s)) <> "")
  /\ ((2 <= currentStep s)%Z -> tactics (formData s) <> [])
  /\ (forall t, t ∈ tactics (formData s) -> t ∈ map fst tacticalOptions)
  /\ (loading s = true -> inflight sys <> []).
Proof.
  cbv zeta.
  induction 1 as [|sys e Hsys (Hstep & Htopic & Htactics & Hopts & Hload) Hen].
  { cbn. repeat split; try lia; try discriminate. intros t Ht. inversion Ht. }
  destruct e as [n v|v| | | | | |i|k|k settled];
    unfold fire, enabled in *; cbn [view inflight] in *.
  - (* Change *)
    unfold run. rewrite handleChange_unfold. cbn [snd].
    destruct (setField_keeps n v (formData (view sys))) as [Ht Hk].
    assert (Hkeep : (1 <= currentStep (view sys))%Z ->
                    trim (topic (setField n v (formData (view sys)))) <> "").
    { intros H1. rewrite Hk; [now apply Htopic|].
      intros ->. apply Z.eqb_eq in Hen. lia. }
    destruct (truthy (VStr (error (view sys)))); cbn; rewrite ?Ht;
      repeat split; auto; lia.
  - (* TacticSelect *)
    unfold run. rewrite handleTacticSelect_unfold. cbn [snd].
    apply andb_true_iff in Hen as [Hone Hin].
    apply Z.eqb_eq in Hone. apply includes_elem_of in Hin.
    pose proof (toggleTactic_options v (formData (view sys)) Hin Hopts) as Hopts'.
    destruct (truthy (VStr (error (view sys)))); cbn;
      repeat split; auto; lia.
  - (* ToggleAdvanced *)
    unfold toggleAdvanced. run_handler. repeat split; auto; lia.
  - (* Next *)
    unfold run. rewrite handleNextStep_unfold. cbv zeta.
    apply Z.ltb_lt in Hen. change (Z.of_nat (List.length steps) - 1)%Z with 3%Z in Hen.
    destruct (isCurrentStepValid (currentStep (view sys)) (view sys)) eqn:Hvalid;
      [|cbn; repeat split; auto; lia].
    replace (currentStep (view sys) <? 3)%Z with true by (symmetry; now apply Z.ltb_lt).
    cbn. repeat split; auto; try lia.
    + intros H1. destruct (Z.eq_dec (currentStep (view sys)) 0%Z) as [H0|H0];
        [|apply Htopic; lia].
      rewrite H0 in Hvalid. cbn in Hvalid. now apply truthy_string.
    + intros H2. destruct (Z.eq_dec (currentStep (view sys)) 1%Z) as [H1|H1];
        [|apply Htactics; lia].
      rewrite H1 in Hvalid. cbn in Hvalid.
      destruct (tactics (formData (view sys))); [discriminate | discriminate].
  - (* Prev *)
    unfold run. rewrite handlePrevStep_unfold.
    apply Z.ltb_lt in Hen.
    replace (0 <? currentStep (view sys))%Z with true by (symmetry; now apply Z.ltb_lt).
    cbn. repeat split; auto; try lia.
    + intros H1. apply Htopic. lia.
    + intros H2. apply Htactics. lia.
  - (* Generate *)
    unfold startGenerate. cbn [view inflight]. rewrite generateContent_unfold.
    destruct (_ || _); cbn; repeat split; auto; try lia.
    intros _. now destruct (inflight sys).
  - (* Clear *)
    cbn. repeat split; auto; try lia; try discriminate. intros t Ht. inversion Ht.
  - (* Regenerate *)
    unfold run. rewrite regenerate_unfold. cbn [snd].
    destruct (nth_error (unusedTactics (formData (view sys))) i) as [t|] eqn:Ht.
    2: { assert (Hsame : match tactics (formData (view sys)), @None string with
                         | _ :: _, Some t =>
                             setFormData (fun prev => setTactics (tactics prev ++ [t]) prev)
                               (view sys)
                         | _, _ => view sys
                         end = view sys) by now destruct (tactics (formData (view sys))).
         rewrite Hsame. repeat split; auto; lia. }
    destruct (tactics (formData (view sys))) as [|x l] eqn:Hl;
      [cbn; rewrite ?Hl; repeat split; auto; lia|].
    cbn. rewrite Hl. repeat split; auto; try discriminate; try lia.
    intros u [Hu| ->%list_elem_of_singleton]%elem_of_app; [now apply Hopts|].
    now apply (unusedTactics_options _ _ _ Ht).
  - (* TimerFires *)
    destruct (timers sys !! k) as [snap|]; [|repeat split; auto; lia].
    unfold startGenerate. cbn [view inflight]. rewrite generateContent_unfold.
    destruct (_ || _); cbn; repeat split; auto; try lia.
    intros _. now destruct (inflight sys).
  - (* Settles *)
    destruct (inflight sys !! k) as [snap|]; [|repeat split; auto; lia].
    cbn [view inflight]. rewrite generateContent_resume_unfold.
    destruct (awaitContent E settled) as [c|[m props|v]]; cbn;
      repeat split; auto; try lia; discriminate.
Qed.

Lemma busy_reachable : reachable V8 Sample.busy.
Proof.
  unfold Sample.busy, Sample.toBusy. cbn [fold_left].
  repeat (apply reachable_fire; [|reflexivity]).
  apply reachable_initial.
Qed.

(** X3.  In every state the component can reach, the current step is one of
    the four steps, 0 to 3; past the first step the topic is not blank, and
    past the second at least one tactic is selected. *)
Theorem currentStep_in_range (E : Engine) (sys : System) (Hsys : reachable E sys) :
  (0 <= currentStep (view sys) <= 3)%Z
  /\ ((1 <= currentStep (view sys))%Z -> trim (topic (formData (view sys))) <> "")
  /\ ((2 <= currentStep (view sys))%Z -> tactics (formData (view sys)) <> []).
Proof.
  destruct (reachable_invariant E sys Hsys) as (Hstep & Htopic & Htactics & _).
  split; [exact Hstep|]. split; [exact Htopic | exact Htactics].
Qed.

Lemma currentStep_in_range_witness : (0 <= currentStep (view Sample.busy) <= 3)%Z.
Proof. apply (currentStep_in_range V8 Sample.busy busy_reachable). Defined.

(** X4.  In every reachable state in which the generate button is live,
    pressing it issues the request: the form can only have been brought to
    the last step with a topic that is not blank and a tactic selected, so
    the check at the head of [generateContent] passes; the loading flag goes
    up and the error is cleared. *)
Theorem generate_button_sends (E : Engine) (sys : System)
    (Hsys : reachable E sys) (Hlive : enabled sys Generate = true) :
  exists req,
    issued (result (generateContent E) (view sys)) = Some req
    /\ data req = JsonBody (payload (formData (view sys)))
    /\ loading (view (fire E sys Generate)) = true
    /\ error (view (fire E sys Generate)) = "".
Proof.
  destruct (reachable_invariant E sys Hsys) as (_ & Htopic & Htactics & _).
  unfold enabled in Hlive. apply andb_true_iff in Hlive as [Hlast _].
  apply Z.eqb_eq in Hlast. change (Z.of_nat (List.length steps) - 1)%Z with 3%Z in Hlast.
  unfold fire, startGenerate, result. cbn [view]. rewrite generateContent_unfold.
  replace (_ || _) with false.
  - eexists. repeat split.
  - symmetry. apply orb_false_iff. split.
    + apply negb_false_iff, truthy_string, Htopic. lia.
    + apply Nat.eqb_neq. specialize (Htactics ltac:(lia)).
      destruct (tactics (formData (view sys))); cbn; congruence.
Qed.

Lemma generate_button_sends_witness :
  exists req,
    issued (result (generateContent V8) (view Sample.busy)) = Some req
    /\ loading (view (fire V8 Sample.busy Generate)) = true.
Proof.
  assert (Hsys : reachable V8 (fire V8 Sample.busy (Settles 0 (Normal Sample.contentBody))))
    by (apply reachable_fire; [apply busy_reachable | reflexivity]).
  destruct (generate_button_sends V8 _ Hsys eq_refl) as (req & Hreq & _ & Hload & _).
  exists req. split; [exact Hreq | exact Hload].
Defined.

(** X5.  In every reachable state, the loading flag is up only while a
    generate-content request is in flight; the settling of any request takes
    it down. *)
Theorem loading_has_request (E : Engine) (sys : System) (Hsys : reachable E sys) :
  (loading (view sys) = true -> inflight sys <> [])
  /\ (forall k settled,
        enabled sys (Settles k settled) = true ->
        loading (view (fire E sys (Settles k settled))) = false).
Proof.
  split; [now apply (reachable_invariant E sys Hsys)|].
  intros k settled Hen. unfold enabled in Hen. apply Nat.ltb_lt in Hen.
  unfold fire. destruct (lookup_lt_is_Some_2 (inflight sys) k Hen) as [snap ->].
  cbn [view]. rewrite generateContent_resume_unfold.
  now destruct (awaitContent E settled) as [c|[m props|v]].
Qed.

Lemma loading_has_request_witness :
  loading (view (fire V8 Sample.busy (Settles 0 (Throw (ThrownValue VNull))))) = false.
Proof.
  apply (proj2 (loading_has_request V8 Sample.busy busy_reachable)). reflexivity.
Defined.

(** X6.  In every reachable state the selected tactics are among the eight
    options, without repetition, so there are at most eight of them. *)
Theorem tactics_among_options (E : Engine) (sys : System) (Hsys : reachable E sys) :
  (forall t, t ∈ tactics (formData (view sys)) ->
             t ∈ ["swot"; "pestle"; "porter"; "okr"; "growth"; "military"; "game";
                  "behavioral"])
  /\ List.length (tactics (formData (view sys))) <= 8.
Proof.
  destruct (reachable_invariant E sys Hsys) as (_ & _ & _ & Hopts & _).
  split; [exact Hopts|].
  change 8 with (List.length (map fst tacticalOptions)).
  apply submseteq_length, NoDup_submseteq; [|exact Hopts].
  now apply (tactics_NoDup_reachable E).
Qed.

Lemma tactics_among_options_witness :
  List.length (tactics (formData (view Sample.busy))) <= 8.
Proof. apply (tactics_among_options V8 Sample.busy busy_reachable). Defined.

(** ** Regeneration *)

(** X7.  Regenerating with an enhancement adds the drawn, so far unused
    tactic to the form, but the request that its timer then sends is built
    by [generateContent] of the same render, whose [formData] is the one
    from before the click: the tactics it posts are the old ones, without
    the added tactic. *)
Theorem regenerate_posts_old_tactics (E : Engine) (s : State) (i : nat) (t : string)
    (Htopic : trim (topic (formData s)) <> "")
    (Htactics : tactics (formData s) <> [])
    (Hdrawn : nth_error (unusedTactics (formData s)) i = Some t) :
  let s' := run (regenerateWithEnhancement i) s in
  tactics (formData s') = (tactics (formData s) ++ [t])%list
  /\ (t ∉ tactics (formData s))
  /\ (exists fields,
        issued (fst (generateContent E s s'))
        = Some {| method := "POST"; url := apiUrl;
                  headers := [("Content-Type", "application/json")];
                  data := JsonBody (VObj fields) |}
        /\ lookupField "tactics" fields = VArr (map VStr (tactics (formData s)))).
Proof.
  cbv zeta. unfold run. rewrite regenerate_unfold, Hdrawn. cbn [snd].
  split; [|split].
  - destruct (tactics (formData s)) eqn:Hl; [congruence | cbn; now rewrite Hl].
  - now apply (unusedTactics_fresh _ i).
  - rewrite generateContent_unfold.
    replace (_ || _) with false.
    + eexists. split; reflexivity.
    + symmetry. apply orb_false_iff. split.
      * apply negb_false_iff, truthy_string, Htopic.
      * apply Nat.eqb_neq. destruct (tactics (formData s)); cbn; congruence.
Qed.

Lemma regenerate_posts_old_tactics_witness :
  tactics (formData (run (regenerateWithEnhancement 0) Sample.filledForm))
  = ["swot"; "pestle"]
  /\ (exists fields,
        issued (fst (generateContent V8 Sample.filledForm
                       (run (regenerateWithEnhancement 0) Sample.filledForm)))
        = Some {| method := "POST"; url := apiUrl;
                  headers := [("Content-Type", "application/json")];
                  data := JsonBody (VObj fields) |}
        /\ lookupField "tactics" fields = VArr [VStr "swot"]).
Proof.
  destruct (regenerate_posts_old_tactics V8 Sample.filledForm 0 "pestle")
    as (Hshown & _ & Hsent); try discriminate; try reflexivity.
  split; [exact Hshown | exact Hsent].
Defined.

(** ** Editing *)

(** X8.  [handleChange] writes the value into the field that the input
    names and into no other: every other field, the tactics included, reads
    as before, as do the step, the content and the two flags; and whatever
    error was shown is gone. *)
Theorem handleChange_sets_its_field (n : inputName) (v : string) (s : State) :
  let s' := run (handleChange n v) s in
  getField n (formData s') = v
  /\ (forall m, m <> n -> getField m (formData s') = getField m (formData s))
  /\ tactics (formData s') = tactics (formData s)
  /\ error s' = ""
  /\ currentStep s' = currentStep s
  /\ content s' = content s
  /\ loading s' = loading s
  /\ showAdvanced s' = showAdvanced s.
Proof.
  cbv zeta. unfold run. rewrite handleChange_unfold. cbn [snd].
  assert (Herr : error ((if truthy (VStr (error s)) then setError "" else fun s => s)
                          (setFormData (setField n v) s)) = "").
  { destruct (truthy (VStr (error s))) eqn:He; [reflexivity|].
    now apply falsy_string in He. }
  split; [|split; [|split; [|split; [exact Herr|]]]];
    destruct (truthy (VStr (error s))); cbn; auto;
    try (now destruct n); intros m Hm; destruct n, m; cbn; congruence.
Qed.

(** ** The outcome of a generation *)

Lemma awaitContent_truthy (E : Engine) settled (c : value) :
  awaitContent E settled = Normal c -> truthy c = true.
Proof.
  unfold awaitContent. destruct settled as [[o st j]|e]; cbn; [|discriminate].
  destruct o; cbn.
  - destruct j as [data|e]; cbn; [|discriminate].
    destruct (getProp E "data" data "content") as [c'|e]; cbn; [|discriminate].
    destruct (truthy c') eqn:Hc; cbn; congruence.
  - destruct j as [data|e]; cbn; [|discriminate].
    destruct (getProp E "errorData" data "message"); discriminate.
Qed.

Lemma caught_error_nonempty (E : Engine) settled (err : thrown) (cur : State) :
  awaitContent E settled = Throw err ->
  error (generateContent_resume E settled cur cur).2 <> "".
Proof.
  intros Hthrown. rewrite generateContent_resume_unfold, Hthrown.
  destruct err as [m props|v]; cbn; [|discriminate].
  unfold or_else. destruct (truthy (VStr m)) eqn:Hm; cbn; [|discriminate].
  now apply truthy_string.
Qed.

(** X9.  A generation that was started from a complete form ends, however
    its request settles, with the loading flag down and with exactly one of
    the two: content to display and no error, or an error message and no
    content.  The form data and the step are as they were. *)
Theorem generation_ends_with_content_or_error (E : Engine) (s : State)
    (settled : completion Response)
    (Htopic : trim (topic (formData s)) <> "")
    (Htactics : tactics (formData s) <> []) :
  let s' := complete (generateContent E) settled s in
  loading s' = false
  /\ formData s' = formData s
  /\ currentStep s' = currentStep s
  /\ ((truthy (content s') = true /\ error s' = "")
      \/ (content s' = VStr "" /\ error s' <> "")).
Proof.
  cbv zeta. rewrite complete_generateContent by assumption.
  set (cur := setContent (VStr "") (setError "" (setLoading true s))).
  pose proof (caught_error_nonempty E settled) as Hcaught.
  pose proof (awaitContent_truthy E settled) as Htruthy.
  rewrite generateContent_resume_unfold in *.
  destruct (awaitContent E settled) as [c|err] eqn:Hc.
  - cbn. repeat split. left. split; [now apply Htruthy | reflexivity].
  - specialize (Hcaught err cur eq_refl).
    rewrite generateContent_resume_unfold, Hc in Hcaught.
    destruct err as [m props|v]; cbn in *; repeat split; right; split; auto.
Qed.

Lemma generation_ends_with_content_or_error_witness :
  loading (complete (generateContent V8) (Normal Sample.unavailable) Sample.filledForm)
  = false.
Proof.
  apply (generation_ends_with_content_or_error V8 Sample.filledForm
           (Normal Sample.unavailable)); discriminate.
Defined.






End ContentGeneratorMore.


(* ===================================================================== *)
(** * The file uploader: requests *)
(* ===================================================================== *)

Section UploaderMore.
Import Js React FileUploader UploaderSystem.

Lemma handleFileSelection_unfold (f : File) (snap cur : State) :
  handleFileSelection f snap cur
  = (Normal tt,
     if includes acceptedTypes (type f)
     then setFileName (name f) (setFile (Some f)
            (setAnalysisData VNull (setInsightData VNull (setError VNull cur))))
     else setFileName "" (setFile None
            (setError (VStr "Unsupported file type. Please upload a PDF or DOCX file.")
               (setAnalysisData VNull (setInsightData VNull (setError VNull cur)))))).
Proof.
  unfold handleFileSelection, mbind, handler_bind, update.
  now destruct (includes acceptedTypes (type f)).
Qed.

Lemma commonRequestConfig_unfold (endpoint : string) setter loaderSetter (t : tab)
    (snap cur : State) :
  commonRequestConfig endpoint setter loaderSetter t snap cur
  = match file snap with
    | None => (Normal Done, setError (VStr "Please select a file first.") cur)
    | Some f =>
        (Normal (Await {| method := "POST";
                          url := "http://localhost:5000/api/" +:+ endpoint;
                          headers := [("Content-Type", "multipart/form-data")];
                          data := FormBody [("file", f)] |}
                       (commonRequest_resume endpoint setter loaderSetter t)),
         setError VNull (setter VNull (loaderSetter true cur)))
    end.
Proof.
  unfold commonRequestConfig, mbind, handler_bind, read, update, mret, handler_ret.
  now destruct (file snap).
Qed.

(** X11.  Without a selected file a request handler sends nothing: it only
    sets the error asking for a file, and leaves the loading flags, the
    results and the tab as they are. *)
Theorem request_without_file (t : tab) (s : State) (Hnone : file s = None) :
  issued (result (requestHandler t) s) = None
  /\ run (requestHandler t) s = setError (VStr "Please select a file first.") s.
Proof.
  unfold result, run.
  destruct t; unfold requestHandler, handleInsights, handleAnalyze;
    rewrite commonRequestConfig_unfold, Hnone; split; reflexivity.
Qed.

Lemma request_without_file_witness :
  error (run (requestHandler analysis) initialState)
  = VStr "Please select a file first.".
Proof.
  pose proof (request_without_file analysis initialState eq_refl) as [_ H].
  now rewrite H.
Defined.

(** X12.  A fulfilled request stores the response body in the result of its
    own kind and shows its tab, with no error and its loading flag down; the
    result of the other kind, the selected file and the other loading flag
    are not touched. *)
Theorem request_fulfilled (s : State) (f : File) (res : AxiosResponse)
    (Hfile : file s = Some f) :
  let i := complete handleInsights (Normal res) s in
  let a := complete handleAnalyze (Normal res) s in
  (insightData i = res_data res /\ activeTab i = insights /\ error i = VNull
   /\ loadingInsights i = false /\ analysisData i = analysisData s
   /\ file i = Some f /\ fileName i = fileName s
   /\ loadingAnalysis i = loadingAnalysis s)
  /\ (analysisData a = res_data res /\ activeTab a = analysis /\ error a = VNull
      /\ loadingAnalysis a = false /\ insightData a = insightData s
      /\ file a = Some f /\ fileName a = fileName s
      /\ loadingInsights a = loadingInsights s).
Proof.
  cbv zeta. unfold complete, handleInsights, handleAnalyze.
  rewrite !commonRequestConfig_unfold, Hfile. cbn. auto 20.
Qed.

Lemma request_fulfilled_witness :
  insightData (complete handleInsights
                 (Normal {| res_data := VObj [("keyConcepts", VArr [])] |}) Sample.selected)
  = VObj [("keyConcepts", VArr [])].
Proof.
  apply (request_fulfilled Sample.selected Sample.report
           {| res_data := VObj [("keyConcepts", VArr [])] |} eq_refl).
Defined.

(** ** What every reachable state of the uploader satisfies *)

Lemma includes_acceptedTypes (ty : string) :
  includes acceptedTypes ty = true
  <-> ty = "application/pdf"
      \/ ty = "application/vnd.openxmlformats-officedocument.wordprocessingml.document".
Proof.
  rewrite includes_elem_of. unfold acceptedTypes.
  rewrite !elem_of_cons, elem_of_nil. tauto.
Qed.

Lemma handleFileSelection_keeps (f : File) (snap cur : State) :
  let s' := (handleFileSelection f snap cur).2 in
  loadingInsights s' = loadingInsights cur
  /\ loadingAnalysis s' = loadingAnalysis cur
  /\ match file s' with
     | Some g =>
         fileName s' = name g
         /\ (type g = "application/pdf"
             \/ type g
                = "application/vnd.openxmlformats-officedocument.wordprocessingml.document")
     | None => fileName s' = ""
     end.
Proof.
  cbv zeta. rewrite handleFileSelection_unfold. cbn [snd].
  destruct (includes acceptedTypes (type f)) eqn:Hf; cbn; repeat split.
  now apply includes_acceptedTypes.
Qed.

Lemma requestResume_keeps (t : tab) settled (snap cur : State) :
  let s' := (requestResume t settled snap cur).2 in
  file s' = file cur /\ fileName s' = fileName cur
  /\ match t with
     | insights => loadingInsights s' = false /\ loadingAnalysis s' = loadingAnalysis cur
     | analysis => loadingAnalysis s' = false /\ loadingInsights s' = loadingInsights cur
     end.
Proof.
  cbv zeta. destruct t, settled as [res|err]; unfold requestResume;
    rewrite ?commonRequest_fulfilled, ?commonRequest_rejected; cbn; auto.
Qed.

(** The file name shown is the name of the selected file, which is a PDF or
    a DOCX document; and the requests in flight are none with both loading
    flags down, or one with the flag of its kind up and the other down. *)
Lemma uploader_invariant (sys : System) :
  reachable sys ->
  let s := view sys in
  match file s with
  | Some f =>
      fileName s = name f
      /\ (type f = "application/pdf"
          \/ type f
             = "application/vnd.openxmlformats-officedocument.wordprocessingml.document")
  | None => fileName s = ""
  end
  /\ match inflight sys with
     | [] => loadingInsights s = false /\ loadingAnalysis s = false
     | [(insights, _)] => loadingInsights s = true /\ loadingAnalysis s = false
     | [(analysis, _)] => loadingInsights s = false /\ loadingAnalysis s = true
     | _ => False
     end.
Proof.
  cbv zeta. induction 1 as [|sys e Hsys [Hfile Hflight] Hen]; [now cbn|].
  destruct e as [| |f|f|t|t|k settled]; unfold fire, enabled in *;
    cbn [view inflight] in *.
  - (* DragEnter *) now cbn.
  - (* DragLeave *) now cbn.
  - (* Drop *)
    destruct f as [f|]; [|now cbn].
    unfold run, handleDrop, mbind, handler_bind, update.
    destruct (handleFileSelection_keeps f (view sys) (setIsDragging false (view sys)))
      as (Hi & Ha & Hf).
    rewrite Hi, Ha. split; [exact Hf | exact Hflight].
  - (* FileChange *)
    destruct f as [f|]; [|now cbn].
    unfold run, handleFileChange.
    destruct (handleFileSelection_keeps f (view sys) (view sys)) as (Hi & Ha & Hf).
    rewrite Hi, Ha. split; [exact Hf | exact Hflight].
  - (* Request *)
    apply negb_true_iff in Hen. unfold requestDisabled, isLoading in Hen.
    destruct (file (view sys)) as [f|] eqn:Hf; [|discriminate].
    cbn in Hen. apply orb_false_iff in Hen as [Hi Ha].
    assert (Hnone : inflight sys = []).
    { destruct (inflight sys) as [|[[|] snap] [|]]; try tauto;
        destruct Hflight; congruence. }
    destruct t; unfold requestHandler, handleInsights, handleAnalyze;
      rewrite commonRequestConfig_unfold, Hf, Hnone; cbn; rewrite Hf, ?Hi, ?Ha; auto.
  - (* ShowTab *) now cbn.
  - (* Settles *)
    apply Nat.ltb_lt in Hen.
    destruct (inflight sys) as [|[t snap] rest] eqn:Hin; cbn in Hen; [lia|].
    destruct rest as [|more rest]; [|now destruct t].
    destruct k as [|k]; [|cbn in Hen; lia]. cbn [lookup list_lookup].
    cbn [view inflight delete list_delete].
    destruct (requestResume_keeps t settled snap (view sys)) as (-> & -> & Hload).
    split; [exact Hfile|].
    destruct t; destruct Hload as [-> ->]; destruct Hflight; auto.
Qed.

Lemma waiting_reachable : reachable waiting.
Proof.
  unfold waiting. cbn [fold_left].
  repeat (apply reachable_fire; [|reflexivity]).
  apply reachable_initial.
Qed.

(** X13.  The requests of the uploader never overlap: in every reachable
    state at most one is in flight, a loading flag is up exactly while one
    is, and a request button is live only when none is. *)
Theorem requests_never_overlap (sys : System) (Hsys : reachable sys) :
  List.length (inflight sys) <= 1
  /\ (isLoading (view sys) = true <-> inflight sys <> [])
  /\ (forall t, enabled sys (Request t) = true -> inflight sys = []).
Proof.
  destruct (uploader_invariant sys Hsys) as [_ Hflight].
  unfold enabled, requestDisabled, isLoading.
  destruct (inflight sys) as [|[[|] snap] [|]]; try tauto;
    destruct Hflight as [-> ->]; cbn; repeat split; try lia; try congruence;
    try discriminate.
  all: intros t; destruct (file (view sys)); cbn; discriminate.
Qed.

Lemma requests_never_overlap_witness :
  List.length (inflight waiting) <= 1
  /\ forall t, enabled waiting (Request t) = true -> inflight waiting = [].
Proof.
  destruct (requests_never_overlap waiting waiting_reachable) as (Hone & _ & Hlive).
  split; [exact Hone | exact Hlive].
Defined.

(** X14.  In every reachable state in which a request button is live,
    pressing it posts the selected file to the endpoint of its kind as the
    part [file] of a multipart form; that file is a PDF or a DOCX document,
    and the file name shown is its name. *)
Theorem request_posts_selected_file (sys : System) (t : tab)
    (Hsys : reachable sys) (Hlive : enabled sys (Request t) = true) :
  exists f,
    file (view sys) = Some f
    /\ fileName (view sys) = name f
    /\ (type f = "application/pdf"
        \/ type f
           = "application/vnd.openxmlformats-officedocument.wordprocessingml.document")
    /\ issued (result (requestHandler t) (view sys))
       = Some {| method := "POST";
                 url := match t with
                        | insights => "http://localhost:5000/api/insights"
                        | analysis => "http://localhost:5000/api/analyze"
                        end;
                 headers := [("Content-Type", "multipart/form-data")];
                 data := FormBody [("file", f)] |}.
Proof.
  destruct (uploader_invariant sys Hsys) as [Hfile _].
  unfold enabled, requestDisabled in Hlive. apply negb_true_iff in Hlive.
  destruct (file (view sys)) as [f|] eqn:Hf; [|discriminate].
  exists f. destruct Hfile as [Hname Htype]. repeat split; auto.
  unfold result. destruct t; unfold requestHandler, handleInsights, handleAnalyze;
    now rewrite commonRequestConfig_unfold, Hf.
Qed.

Lemma request_posts_selected_file_witness :
  exists f,
    file Sample.selected = Some f
    /\ issued (result (requestHandler analysis) Sample.selected)
       = Some {| method := "POST"; url := "http://localhost:5000/api/analyze";
                 headers := [("Content-Type", "multipart/form-data")];
                 data := FormBody [("file", f)] |}.
Proof.
  assert (Hsys : reachable (fire initialSystem (FileChange (Some Sample.report))))
    by (apply reachable_fire; [apply reachable_initial | reflexivity]).
  destruct (request_posts_selected_file _ analysis Hsys eq_refl) as (f & Hf & _ & _ & Hreq).
  exists f. split; [exact Hf | exact Hreq].
Defined.

End UploaderMore.


(* ===================================================================== *)
(** * The speech input: analysis of an utterance *)
(* ===================================================================== *)

Section SpeechAnalysis.
Import Js React SpeechInput.

Lemma occurring_elem_of (words : list string) (content w : string) :
  w ∈ occurring words content <-> w ∈ words /\ occursIn (toLowerCase content) w = true.
Proof. unfold occurring. now rewrite !list_elem_of_In, filter_In. Qed.

Lemma occurring_some (words : list string) (content : string) :
  (0 <? List.length (occurring words content))%nat = true
  <-> exists w, w ∈ words /\ occursIn (toLowerCase content) w = true.
Proof.
  rewrite Nat.ltb_lt. split.
  - destruct (occurring words content) as [|w l] eqn:Hocc; cbn; [lia|].
    intros _. exists w. apply occurring_elem_of. rewrite Hocc. now left.
  - intros (w & Hw). apply occurring_elem_of in Hw.
    destruct (occurring words content); [inversion Hw | cbn; lia].
Qed.

Lemma occurring_none (words : list string) (content : string) :
  (0 <? List.length (occurring words content))%nat = false
  <-> ~ exists w, w ∈ words /\ occursIn (toLowerCase content) w = true.
Proof. rewrite <- occurring_some. now destruct (0 <? _)%nat. Qed.

Lemma both_kinds_mixed (content : string) :
  (exists w, w ∈ positiveWords /\ occursIn (toLowerCase content) w = true) ->
  (exists w, w ∈ negativeWords /\ occursIn (toLowerCase content) w = true) ->
  analyzeSentiment content = mixed.
Proof.
  intros Hgood%occurring_some Hbad%occurring_some.
  unfold analyzeSentiment. now rewrite Hgood, Hbad.
Qed.

(** X15.  The sentiment of an utterance depends only on whether a positive
    and whether a negative word occurs in its lower-cased text, not on how
    many do: mixed when both kinds occur, positive or negative when one kind
    only does, neutral when neither does.  The sentiment is never left
    unset. *)
Theorem analyzeSentiment_cases (content : string) :
  let good := exists w, w ∈ positiveWords /\ occursIn (toLowerCase content) w = true in
  let bad := exists w, w ∈ negativeWords /\ occursIn (toLowerCase content) w = true in
  (analyzeSentiment content = mixed <-> good /\ bad)
  /\ (analyzeSentiment content = positive <-> good /\ ~ bad)
  /\ (analyzeSentiment content = negative <-> bad /\ ~ good)
  /\ (analyzeSentiment content = neutral <-> ~ good /\ ~ bad)
  /\ analyzeSentiment content <> unset.
Proof.
  cbv zeta. unfold analyzeSentiment.
  pose proof (occurring_some positiveWords content) as Hp.
  pose proof (occurring_some negativeWords content) as Hn.
  pose proof (occurring_none positiveWords content) as Hp'.
  pose proof (occurring_none negativeWords content) as Hn'.
  destruct (List.length (occurring positiveWords content)) as [|p];
    destruct (List.length (occurring negativeWords content)) as [|n];
    cbn -[positiveWords negativeWords occursIn] in *;
    repeat split; try discriminate; tauto.
Qed.

Lemma startsWith_occursIn (s w : string) : startsWith s w = true -> occursIn s w = true.
Proof. destruct s; cbn; intros ->; reflexivity. Qed.

Lemma occursIn_String (c : ascii) (s w : string) :
  occursIn s w = true -> occursIn (String c s) w = true.
Proof. intros H. cbn. rewrite H. apply orb_true_r. Qed.

(** A string that contains [String c w] contains [w]. *)
Lemma occursIn_tail (c : ascii) (s w : string) :
  occursIn s (String c w) = true -> occursIn s w = true.
Proof.
  induction s as [|b s IH]; cbn; [discriminate|].
  intros [Hhead|Hlater]%orb_true_iff.
  - apply andb_true_iff in Hhead as [_ Hw].
    now apply occursIn_String, startsWith_occursIn.
  - now apply occursIn_String, IH.
Qed.

(** X16.  An utterance that contains "disagree" is classified as mixed, never
    as negative: "agree", which "disagree" contains, is on the list of
    positive words. *)
Theorem disagree_is_mixed (content : string)
    (Hsaid : occursIn (toLowerCase content) "disagree" = true) :
  analyzeSentiment content = mixed.
Proof.
  apply both_kinds_mixed.
  - exists "agree". split; [now apply includes_elem_of|].
    now do 3 apply occursIn_tail in Hsaid.
  - exists "disagree". split; [now apply includes_elem_of | exact Hsaid].
Qed.

Lemma disagree_is_mixed_witness : analyzeSentiment "I DISAGREE with that" = mixed.
Proof. apply (disagree_is_mixed "I DISAGREE with that"). reflexivity. Defined.

Lemma NoDup_List_filter {A} (f : A -> bool) (l : list A) :
  NoDup l -> NoDup (List.filter f l).
Proof.
  induction 1 as [|x l Hx Hl IH]; cbn; [constructor|].
  destruct (f x); [|assumption].
  constructor; [|assumption].
  rewrite list_elem_of_In, filter_In, <- list_elem_of_In. tauto.
Qed.

Lemma commonKeywords_NoDup : NoDup commonKeywords.
Proof. apply (bool_decide_unpack _). vm_compute. exact I. Qed.

(** X17.  [extractKeywords] yields at most three keywords, without
    repetition, each of them one of the common keywords and occurring in the
    lower-cased text; it yields none exactly when no common keyword
    occurs. *)
Theorem extractKeywords_bounded (content : string) :
  List.length (extractKeywords content) <= 3
  /\ NoDup (extractKeywords content)
  /\ (forall k, k ∈ extractKeywords content ->
                k ∈ commonKeywords /\ occursIn (toLowerCase content) k = true)
  /\ (extractKeywords content = []
      <-> forall k, k ∈ commonKeywords -> occursIn (toLowerCase content) k = false).
Proof.
  unfold extractKeywords. repeat split.
  - rewrite length_take. lia.
  - eapply sublist_NoDup; [|apply sublist_take].
    apply NoDup_List_filter, commonKeywords_NoDup.
  - now apply (subseteq_take 3), occurring_elem_of in H.
  - now apply (subseteq_take 3), occurring_elem_of in H.
  - intros Hnone k Hk.
    destruct (occursIn (toLowerCase content) k) eqn:Hocc; [|reflexivity].
    assert (Hin : k ∈ occurring commonKeywords content) by now apply occurring_elem_of.
    destruct (occurring commonKeywords content); [inversion Hin | discriminate].
  - intros Hnone.
    destruct (occurring commonKeywords content) as [|k l] eqn:Hocc; [reflexivity|].
    assert (Hin : k ∈ occurring commonKeywords content) by (rewrite Hocc; now left).
    apply occurring_elem_of in Hin as [Hk Hocc'].
    rewrite (Hnone k Hk) in Hocc'. discriminate.
Qed.

End SpeechAnalysis.


(* ===================================================================== *)
(** * The speech input: analysis of the whole transcript *)
(* ===================================================================== *)

Section SpeechOverall.
Import Js React SpeechInput.

Lemma updateOverallAnalysis_unfold (snap cur : State) :
  updateOverallAnalysis snap cur
  = match transcript snap with
    | [] =>
        (Normal {| analysisSentiment := unset; analysisSummary := "";
                   analysisKeywords := [] |},
         setOverallKeywords [] (setOverallSentiment unset (setOverallSummary "" cur)))
    | _ :: _ =>
        let t := transcript snap in
        let sent := overallOf (countSentiment positive t) (countSentiment negative t)
                      (countSentiment mixed t) in
        (Normal {| analysisSentiment := sent; analysisSummary := summaryOf t;
                   analysisKeywords := distinct (flat_map keywords t) |},
         setOverallKeywords (distinct (flat_map keywords t))
           (setOverallSentiment sent (setOverallSummary (summaryOf t) cur)))
    end.
Proof.
  unfold updateOverallAnalysis, mbind, handler_bind, read, update, mret, handler_ret.
  cbv beta iota. now destruct (transcript snap).
Qed.

(** X18.  The overall sentiment.  With an empty transcript the analysis is
    reset.  Otherwise, counting the entries by sentiment: the overall
    sentiment is neutral exactly when no entry is positive, negative or
    mixed; negative exactly when the negative entries outnumber both the
    positive and the mixed ones; positive when the positive entries
    outnumber both others, and also when positive and negative entries tie
    with no mixed entry; mixed in all other cases.  Neutral entries never
    weigh in. *)
Theorem overall_sentiment_cases (s : State) :
  let s' := run updateOverallAnalysis s in
  let p := countSentiment positive (transcript s) in
  let n := countSentiment negative (transcript s) in
  let m := countSentiment mixed (transcript s) in
  (transcript s = [] ->
   overallSentiment s' = unset /\ overallSummary s' = "" /\ overallKeywords s' = [])
  /\ (transcript s <> [] ->
      (overallSentiment s' = neutral <-> p = 0 /\ n = 0 /\ m = 0)
      /\ (overallSentiment s' = negative <-> p < n /\ m < n)
      /\ (overallSentiment s' = positive
          <-> (n < p /\ m < p) \/ (p = n /\ 0 < p /\ m = 0))
      /\ (overallSentiment s' = mixed
          <-> 0 < m /\ ~ (n < p /\ m < p) /\ ~ (p < n /\ m < n))
      /\ overallSentiment s' <> unset).
Proof.
  cbv zeta. unfold run. rewrite updateOverallAnalysis_unfold.
  destruct (transcript s) as [|e t] eqn:Ht; [split; [now cbn | congruence]|].
  split; [discriminate|]. intros _. cbv zeta. cbn [snd overallSentiment setOverallKeywords
    setOverallSentiment]. unfold overallOf.
  generalize (countSentiment positive (e :: t)) as p.
  generalize (countSentiment negative (e :: t)) as n.
  generalize (countSentiment mixed (e :: t)) as m.
  intros m n p.
  destruct (Nat.ltb_spec n p), (Nat.ltb_spec m p), (Nat.ltb_spec p n),
    (Nat.ltb_spec m n), (Nat.ltb_spec 0 m), (Nat.ltb_spec 0 p), (Nat.ltb_spec 0 n);
    cbn; repeat split; intros; try discriminate; try lia.
Qed.

Lemma distinctFrom_elem_of (seen xs : list string) (x : string) :
  x ∈ distinctFrom seen xs <-> x ∈ xs /\ x ∉ seen.
Proof.
  revert seen. induction xs as [|y xs IH]; intros seen; cbn.
  - rewrite elem_of_nil. tauto.
  - destruct (includes seen y) eqn:Hy.
    + apply includes_elem_of in Hy. rewrite IH, elem_of_cons.
      split; [tauto | intros [[->|Hx] Hseen]; tauto].
    + apply includes_not_elem_of in Hy.
      rewrite !elem_of_cons, IH, elem_of_app, list_elem_of_singleton.
      destruct (decide (x = y)) as [->|Hne]; tauto.
Qed.

Lemma distinctFrom_NoDup (seen xs : list string) : NoDup (distinctFrom seen xs).
Proof.
  revert seen. induction xs as [|y xs IH]; intros seen; cbn; [constructor|].
  destruct (includes seen y); [apply IH|].
  constructor; [|apply IH].
  rewrite distinctFrom_elem_of, elem_of_app, list_elem_of_singleton. tauto.
Qed.

Lemma length_append (a b : string) :
  String.length (a +:+ b) = String.length a + String.length b.
Proof. induction a as [|c a IH]; [reflexivity|]. cbn. now rewrite <- IH. Qed.

Lemma length_substring (n m : nat) (s : string) :
  String.length (String.substring n m s) <= m.
Proof.
  revert n m. induction s as [|c s IH]; intros [|n] [|m]; cbn; try lia.
  - specialize (IH 0 m). lia.
  - apply (IH n 0).
  - apply (IH n (S m)).
Qed.

Lemma summaryOf_length (t : list TranscriptEntry) :
  String.length (summaryOf t) <= 162.
Proof.
  unfold summaryOf.
  generalize (String.concat " " (map text (skipn (List.length t - 5) t))) as recent.
  intros recent. rewrite length_append.
  change (String.length "Summary: ") with 9.
  destruct (Nat.ltb_spec 150 (String.length recent)) as [Hlong|Hshort].
  - rewrite length_append. pose proof (length_substring 0 150 recent).
    change (String.length "...") with 3. lia.
  - unfold or_else. destruct (truthy (VStr recent)); cbn; lia.
Qed.

(** X19.  The overall summary never exceeds 162 characters.  The overall
    keywords are the keywords of the entries of the transcript, each listed
    once.  What is stored is what is reported to [onAnalysisComplete], and
    the transcript itself is not changed. *)
Theorem overall_summary_and_keywords (s : State) :
  let s' := run updateOverallAnalysis s in
  String.length (overallSummary s') <= 162
  /\ NoDup (overallKeywords s')
  /\ (forall k, k ∈ overallKeywords s'
                <-> exists e, e ∈ transcript s /\ k ∈ keywords e)
  /\ result updateOverallAnalysis s
     = Normal {| analysisSentiment := overallSentiment s';
                 analysisSummary := overallSummary s';
                 analysisKeywords := overallKeywords s' |}
  /\ transcript s' = transcript s
  /\ currentSpeaker s' = currentSpeaker s.
Proof.
  cbv zeta. unfold run, result. rewrite updateOverallAnalysis_unfold.
  destruct (transcript s) as [|e t] eqn:Ht.
  - cbn. rewrite Ht. repeat split; try lia; try constructor.
    + intros Hk. inversion Hk.
    + intros (e & He & _). inversion He.
  - cbv zeta. cbn [fst snd overallSummary overallKeywords overallSentiment transcript
                   currentSpeaker setOverallKeywords setOverallSentiment
                   setOverallSummary].
    rewrite Ht. split; [apply summaryOf_length|].
    split; [apply distinctFrom_NoDup|].
    split; [|repeat split].
    intros k. unfold distinct. rewrite distinctFrom_elem_of, list_elem_of_In, in_flat_map.
    split.
    + intros [(x & Hx & Hk) _]. exists x. now rewrite !list_elem_of_In.
    + intros (x & Hx & Hk). split; [|apply not_elem_of_nil].
      exists x. now rewrite <- !list_elem_of_In.
Qed.

End SpeechOverall.


(* ===================================================================== *)
(** * The speech input: speakers and results *)
(* ===================================================================== *)

Section SpeechControls.
Import Js React SpeechInput.

Lemma indexOf_absent (l : list string) (x : string) : x ∉ l -> indexOf l x = (-1)%Z.
Proof.
  induction l as [|y l IH]; cbn; [reflexivity|].
  intros [Hne Hl]%not_elem_of_cons.
  destruct (String.eqb_spec y x) as [->|_]; [congruence|].
  now rewrite IH.
Qed.

Lemma indexOf_lookup (l : list string) (i : nat) (x : string) :
  NoDup l -> l !! i = Some x -> indexOf l x = Z.of_nat i.
Proof.
  intros Hl. revert i. induction Hl as [|y l Hy Hl IH]; intros i Hi; [inversion Hi|].
  cbn. destruct i as [|i]; cbn in Hi.
  - injection Hi as ->. now rewrite String.eqb_refl.
  - destruct (String.eqb_spec y x) as [->|_].
    + exfalso. apply Hy. now apply list_elem_of_lookup_2 in Hi.
    + rewrite (IH i Hi).
      replace (Z.of_nat i <? 0)%Z with false by (symmetry; apply Z.ltb_ge; lia).
      lia.
Qed.

Lemma rotateSpeaker_unfold (speakers : list string) (snap cur : State) :
  rotateSpeaker speakers snap cur
  = (Normal tt,
     setCurrentSpeaker
       (let currentIndex := match currentSpeaker snap with
                            | Some x => indexOf speakers x
                            | None => (-1)%Z
                            end in
        if (Z.of_nat (List.length speakers) =? 0)%Z then None
        else speakers !! Z.to_nat ((currentIndex + 1) mod Z.of_nat (List.length speakers)))
       cur).
Proof. reflexivity. Qed.

Lemma rotate_from_index (speakers : list string) (s : State) (i : nat) (sp : string) :
  NoDup speakers -> speakers !! i = Some sp -> currentSpeaker s = Some sp ->
  currentSpeaker (run (rotateSpeaker speakers) s)
  = speakers !! ((i + 1) mod List.length speakers).
Proof.
  intros Hnodup Hi Hcur. unfold run. rewrite rotateSpeaker_unfold. cbn [snd].
  rewrite Hcur, (indexOf_lookup speakers i sp Hnodup Hi). cbn [currentSpeaker setCurrentSpeaker].
  apply lookup_lt_Some in Hi.
  replace (Z.of_nat (List.length speakers) =? 0)%Z with false
    by (symmetry; apply Z.eqb_neq; lia).
  replace (Z.of_nat i + 1)%Z with (Z.of_nat (i + 1)) by lia.
  now rewrite <- Nat2Z.inj_mod, Nat2Z.id.
Qed.

Lemma rotate_iterated (speakers : list string) (s : State) (i : nat) (sp : string) (k : nat) :
  NoDup speakers -> speakers !! i = Some sp -> currentSpeaker s = Some sp ->
  currentSpeaker (Nat.iter k (run (rotateSpeaker speakers)) s)
  = speakers !! ((i + k) mod List.length speakers).
Proof.
  intros Hnodup Hi Hcur. pose proof (lookup_lt_Some _ _ _ Hi) as Hlt.
  unfold Nat.iter. induction k as [|k IH]; cbn [nat_rect].
  - rewrite Nat.add_0_r, Nat.mod_small by assumption. now rewrite Hcur, Hi.
  - assert (Hj : (i + k) mod List.length speakers < List.length speakers)
      by (apply Nat.mod_upper_bound; lia).
    destruct (lookup_lt_is_Some_2 speakers _ Hj) as [sp' Hsp'].
    rewrite (rotate_from_index speakers _ _ sp' Hnodup Hsp') by now rewrite IH, Hsp'.
    f_equal. rewrite Nat.Div0.add_mod_idemp_l. f_equal. lia.
Qed.

(** X20.  Rotating the speaker.  With duplicate-free speakers and the current
    speaker among them, one rotation moves to the next speaker, wrapping
    around at the end, and as many rotations as there are speakers come back
    to the speaker they started from.  A current speaker that is not in the
    list is followed by the first speaker; with no speakers at all the
    current speaker becomes undefined. *)
Theorem rotateSpeaker_cycles (speakers : list string) (s : State) :
  let rotate := run (rotateSpeaker speakers) in
  (NoDup speakers ->
   forall i sp, speakers !! i = Some sp -> currentSpeaker s = Some sp ->
     currentSpeaker (rotate s) = speakers !! ((i + 1) mod List.length speakers)
     /\ currentSpeaker (Nat.iter (List.length speakers) rotate s) = Some sp)
  /\ ((forall sp, currentSpeaker s = Some sp -> sp ∉ speakers) ->
      currentSpeaker (rotate s) = head speakers)
  /\ (speakers = [] -> currentSpeaker (rotate s) = None).
Proof.
  cbv zeta. repeat apply conj.
  - intros Hnodup i sp Hi Hcur. split; [now apply (rotate_from_index speakers s i sp)|].
    rewrite (rotate_iterated speakers s i sp _ Hnodup Hi Hcur).
    pose proof (lookup_lt_Some _ _ _ Hi) as Hlt.
    replace (i + List.length speakers) with (i + 1 * List.length speakers) by lia.
    now rewrite Nat.Div0.mod_add, Nat.mod_small.
  - intros Hunknown. unfold run. rewrite rotateSpeaker_unfold. cbn [snd].
    assert (Hidx : match currentSpeaker s with
                   | Some x => indexOf speakers x
                   | None => (-1)%Z
                   end = (-1)%Z).
    { destruct (currentSpeaker s) as [sp|]; [|reflexivity].
      apply indexOf_absent. now apply Hunknown. }
    cbv zeta. rewrite Hidx. destruct speakers as [|a l]; [reflexivity|].
    cbn [currentSpeaker setCurrentSpeaker].
    replace (Z.of_nat (List.length (a :: l)) =? 0)%Z with false
      by (symmetry; apply Z.eqb_neq; cbn [List.length]; lia).
    change (-1 + 1)%Z with 0%Z. rewrite Z.mod_0_l by (cbn [List.length]; lia).
    reflexivity.
  - intros ->. reflexivity.
Qed.

Lemma rotateSpeaker_cycles_witness :
  let speakers := ["Speaker A"; "Speaker B"] in
  let s := initialState speakers "en-US" in
  currentSpeaker (run (rotateSpeaker speakers) s) = Some "Speaker B"
  /\ currentSpeaker (Nat.iter 2 (run (rotateSpeaker speakers)) s) = Some "Speaker A".
Proof.
  cbv zeta.
  apply (proj1 (rotateSpeaker_cycles ["Speaker A"; "Speaker B"]
                  (initialState ["Speaker A"; "Speaker B"] "en-US"))
           ltac:(apply (bool_decide_unpack _); vm_compute; exact I) 0 "Speaker A");
    reflexivity.
Defined.

(** ** Who an utterance is attributed to *)

Lemma onresult_unfold (isFinal : bool) (content : string) (now : Z) (snap cur : State) :
  onresult isFinal content now snap cur
  = (Normal tt,
     if isFinal && truthy (VStr (trim content))
     then setTranscript
            (fun prev =>
               prev ++ [{| speaker := currentSpeaker snap; text := content;
                           timestamp := now; sentiment := analyzeSentiment content;
                           keywords := extractKeywords content |}])%list
            cur
     else cur).
Proof.
  unfold onresult. destruct isFinal; [|reflexivity].
  cbn [andb]. now destruct (truthy (VStr (trim content))).
Qed.

Lemma updateOverallAnalysis_keeps (snap cur : State) :
  transcript (updateOverallAnalysis snap cur).2 = transcript cur
  /\ currentSpeaker (updateOverallAnalysis snap cur).2 = currentSpeaker cur.
Proof.
  unfold updateOverallAnalysis, mbind, handler_bind, read, update, mret, handler_ret.
  cbv beta iota. now destruct (List.length (transcript snap) =? 0)%nat.
Qed.

Lemma toggleListening_keeps (started : bool) (snap cur : State) :
  transcript (toggleListening started snap cur).2 = transcript cur.
Proof.
  unfold toggleListening, mbind, handler_bind, read, update.
  cbv beta iota. now destruct (isListening snap), started.
Qed.

(** What the model of the effects keeps true as long as the language is not
    changed: the handlers of the recognition still belong to a render in
    which the first speaker was current, and every entry is attributed to
    that speaker. *)
Lemma first_speaker_kept (speakers : list string) (sys : System) (e : event) :
  changesLanguage e = false ->
  (forall c, recognition sys = Some c -> currentSpeaker c = head speakers) ->
  Forall (fun entry => speaker entry = head speakers) (transcript (view sys)) ->
  (forall c, recognition (fire speakers sys e) = Some c -> currentSpeaker c = head speakers)
  /\ Forall (fun entry => speaker entry = head speakers)
       (transcript (view (fire speakers sys e))).
Proof.
  intros He Hrec Hall.
  destruct e as [started|sp| |l|isFinal content now|code]; try discriminate;
    unfold fire; cbn [view recognition].
  - split; [exact Hrec|]. unfold run. now rewrite toggleListening_keeps.
  - split; [exact Hrec | exact Hall].
  - split; [exact Hrec | exact Hall].
  - destruct (recognition sys) as [c|] eqn:Hc; [|rewrite Hc; split; [exact Hrec | exact Hall]].
    assert (Hs1 : Forall (fun entry => speaker entry = head speakers)
                    (transcript (onresult isFinal content now c (view sys)).2)).
    { rewrite onresult_unfold. cbn [snd].
      destruct (isFinal && truthy (VStr (trim content))); [|exact Hall].
      cbn [transcript setTranscript]. apply Forall_app. split; [exact Hall|].
      constructor; [|constructor]. cbn. now apply Hrec. }
    destruct (_ =? _)%nat; cbn [view recognition]; rewrite ?Hc; (split; [exact Hrec|]);
      [exact Hs1|].
    unfold run. now rewrite (proj1 (updateOverallAnalysis_keeps _ _)).
  - destruct (recognition sys) as [c|] eqn:Hc; [|rewrite Hc; split; [exact Hrec | exact Hall]].
    cbn [view recognition]. split; [exact Hrec | exact Hall].
Qed.

(** X21.  As long as the language is not changed, every utterance is
    attributed to the first speaker of the list, whichever speaker is
    selected or rotated to when it is recognised: the handler that records
    an utterance belongs to the render in which the recognition was created,
    and reads the speaker of that render. *)
Theorem utterances_keep_first_speaker (supp : bool) (speakers : list string)
    (defaultLanguage : string) (events : list event)
    (Hsame : forallb (fun e => negb (changesLanguage e)) events = true) :
  Forall (fun entry => speaker entry = head speakers)
    (transcript (view (fold_left (fire speakers) events
                         (mount supp speakers defaultLanguage)))).
Proof.
  assert (Hinit : (forall c, recognition (mount supp speakers defaultLanguage) = Some c ->
                             currentSpeaker c = head speakers)
                  /\ Forall (fun entry => speaker entry = head speakers)
                       (transcript (view (mount supp speakers defaultLanguage)))).
  { unfold mount, languageEffect. destruct supp; cbn; split; try constructor;
      try discriminate. now intros c [= <-]. }
  revert Hinit. generalize (mount supp speakers defaultLanguage) as sys.
  induction events as [|e events IH]; intros sys [Hrec Hall]; [exact Hall|].
  cbn [forallb fold_left] in *. apply andb_true_iff in Hsame as [He Hrest].
  apply negb_true_iff in He.
  apply (IH Hrest). now apply first_speaker_kept.
Qed.

Lemma utterances_keep_first_speaker_witness :
  let speakers := ["Speaker A"; "Speaker B"] in
  let sys := fold_left (fire speakers)
               [Toggle true; Rotate; Result true "I agree" 1000%Z]
               (mount true speakers "en-US") in
  currentSpeaker (view sys) = Some "Speaker B"
  /\ Forall (fun entry => speaker entry = Some "Speaker A") (transcript (view sys))
  /\ List.length (transcript (view sys)) = 1.
Proof.
  cbv zeta. split; [reflexivity|]. split; [|reflexivity].
  apply (utterances_keep_first_speaker true ["Speaker A"; "Speaker B"] "en-US"
           [Toggle true; Rotate; Result true "I agree" 1000%Z]).
  reflexivity.
Defined.

End SpeechControls.


(* ===================================================================== *)
(** * White space in the topic *)
(* ===================================================================== *)

Section TopicWhiteSpace.
Import Js React TacticalContentGenerator FileNameSpec.

Lemma trimEnd_empty (s : string) : trimEnd s = "" <-> allWhiteSpace s = true.
Proof.
  induction s as [|c s IH]; cbn; [tauto|].
  rewrite andb_true_iff, <- IH.
  destruct (trimEnd s), (isWhiteSpace c); split; try tauto; try discriminate;
    intros []; discriminate.
Qed.

Lemma allWhiteSpace_trimStart (s : string) :
  allWhiteSpace (trimStart s) = allWhiteSpace s.
Proof.
  induction s as [|c s IH]; cbn; [reflexivity|].
  destruct (isWhiteSpace c) eqn:Hc; cbn; [exact IH | now rewrite Hc].
Qed.

Lemma trim_empty (s : string) : trim s = "" <-> allWhiteSpace s = true.
Proof. unfold trim. now rewrite trimEnd_empty, allWhiteSpace_trimStart. Qed.

(** X22.  A topic is refused exactly when it consists of white space only
    (the empty topic included): that is when the Next button of the first
    step is not highlighted and when [generateContent] sends nothing,
    whatever tactics are selected. *)
Theorem blank_topic_is_white_space (E : Engine) (s : State) :
  (isCurrentStepValid 0 s = false <-> allWhiteSpace (topic (formData s)) = true)
  /\ (allWhiteSpace (topic (formData s)) = true ->
      issued (result (generateContent E) s) = None).
Proof.
  split.
  - cbn [isCurrentStepValid]. now rewrite falsy_string, trim_empty.
  - intros Hblank%trim_empty. unfold result. rewrite generateContent_unfold.
    apply falsy_string in Hblank. now rewrite Hblank.
Qed.

Lemma replace_free (s : string) :
  WhiteSpace.free (replaceWhiteSpaceRuns "-" s) = true
  /\ WhiteSpace.free (skipRun "-" s) = true.
Proof.
  induction s as [|c s [IHr IHs]]; cbn; [now split|].
  destruct (isWhiteSpace c) eqn:Hc; cbn; rewrite ?Hc, ?IHr, ?IHs; now split.
Qed.

Lemma lowerCaseUnit_free (c : ascii) :
  isWhiteSpace c = false -> isWhiteSpace (lowerCaseUnit c) = false.
Proof.
  destruct c as [[] [] [] [] [] [] [] []]; vm_compute; congruence.
Qed.

Lemma toLowerCase_free (s : string) :
  WhiteSpace.free s = true -> WhiteSpace.free (toLowerCase s) = true.
Proof.
  induction s as [|c s IH]; cbn; [reflexivity|].
  intros [Hc Hs]%andb_true_iff. apply negb_true_iff in Hc.
  now rewrite (lowerCaseUnit_free c Hc), IH.
Qed.

Lemma free_append (a b : string) :
  WhiteSpace.free (a +:+ b) = WhiteSpace.free a && WhiteSpace.free b.
Proof.
  induction a as [|c a IH]; [reflexivity|].
  change (String c a +:+ b) with (String c (a +:+ b)). cbn.
  now rewrite IH, andb_assoc.
Qed.

(** X23.  The file name under which [downloadMarkdown] saves the content
    never contains white space, whatever the topic is. *)
Theorem download_name_has_no_white_space (s : State) (d : Download)
    (Hsaved : result downloadMarkdown s = Normal (Some d)) :
  WhiteSpace.free (download d) = true.
Proof.
  unfold result, downloadMarkdown, mbind, handler_bind, mret, handler_ret, read in Hsaved.
  cbn in Hsaved. destruct (truthy (content s)); cbn in Hsaved; [|discriminate].
  injection Hsaved as <-. cbn [download].
  rewrite !free_append. cbn [WhiteSpace.free]. unfold or_else.
  set (slug := toLowerCase (replaceWhiteSpaceRuns "-" (topic (formData s)))).
  assert (Hslug : WhiteSpace.free slug = true)
    by apply toLowerCase_free, replace_free.
  destruct (truthy (VStr slug)); cbn [toString]; [now rewrite Hslug | reflexivity].
Qed.

Lemma download_name_has_no_white_space_witness :
  exists d,
    result downloadMarkdown
      (setFormData (setField NTopic "  Edge   AI	Plan ")
         (setContent (VStr "# Plan") Sample.filledForm))
    = Normal (Some d)
    /\ download d = "tactical-content--edge-ai-plan-.md"
    /\ WhiteSpace.free (download d) = true.
Proof.
  eexists. split; [reflexivity|]. split; [reflexivity|].
  apply (download_name_has_no_white_space
           (setFormData (setField NTopic "  Edge   AI	Plan ")
              (setContent (VStr "# Plan") Sample.filledForm)) _ eq_refl).
Defined.

End TopicWhiteSpace.
